(** * SrSENet training script ([train.py]): a shallow embedding

    The script is glue around PyTorch: it parses options, builds a dataset
    loader, a model and an optimizer, optionally restores a checkpoint, and
    runs an epoch loop that logs the loss and saves a checkpoint per epoch.

    The embedding keeps the control flow, the exceptions and the observable
    effects (standard output, the scalar log, the checkpoint saves) of the
    script.  Tensors, modules and the numerical operations of the framework
    are an interface ([Torch]); the file system and the accelerator are a
    [World]. *)

From stdpp Require Import gmap strings list sorting.
From Stdlib Require Import ZArith Lia SpecFloat.

Local Open Scope Z_scope.

(** ** Python exceptions and results *)

Inductive exn : Type :=
| Exception (msg : string)
| KeyError (key : string)
| TypeError (msg : string)
| AttributeError (attr : string)
| IndexError
| ValueError (msg : string)
| OverflowError (msg : string)
| IOError (path : string)
| FormatError (path : string)
| RuntimeError (msg : string).

Inductive result (A : Type) : Type :=
| Return (a : A)
| Raise (e : exn).
Arguments Return {A} a.
Arguments Raise {A} e.

Definition is_Return {A} (r : result A) : bool :=
  match r with Return _ => true | Raise _ => false end.

(** ** Python helpers *)

(** [range(a, b)] with the default step. *)
Definition py_range (a b : Z) : list Z :=
  map (fun i : nat => a + Z.of_nat i) (seq 0 (Z.to_nat (b - a))).

(** [l[i]] on a Python list: negative indices count from the end. *)
Definition py_getitem {A} (l : list A) (i : Z) : result A :=
  let j := if i <? 0 then i + Z.of_nat (length l) else i in
  if j <? 0 then Raise IndexError
  else match l !! Z.to_nat j with
       | Some x => Return x
       | None => Raise IndexError
       end.

(** [float(x)] on an [int], as [math.sqrt] converts its argument: the nearest
    IEEE 754 double, ties to even; an infinite result stands for the
    [OverflowError] the conversion raises. *)
Definition float_of_int (x : Z) : spec_float :=
  binary_normalize 53 1024 x 0 false.

(** [int(f)] on a [float]: truncation towards zero. *)
Definition int_of_float (f : spec_float) : result Z :=
  match f with
  | S754_zero _ => Return 0
  | S754_finite s m e =>
      let v := if 0 <=? e then Z.pos m * 2 ^ e else Z.pos m / 2 ^ (- e) in
      Return (if s then - v else v)
  | S754_infinity _ =>
      Raise (OverflowError "cannot convert float infinity to integer")
  | S754_nan => Raise (ValueError "cannot convert float NaN to integer")
  end.

(** [int(math.sqrt(x))] on an [int].  The argument is converted to a double
    ([OverflowError] when it is too large), the square root is the correctly
    rounded one of the double ([ValueError] on a negative argument), and
    [int] truncates it. *)
Definition int_math_sqrt (x : Z) : result Z :=
  match float_of_int x with
  | S754_infinity _ => Raise (OverflowError "int too large to convert to float")
  | f =>
      match SFsqrt 53 1024 f with
      | S754_nan => Raise (ValueError "math domain error")
      | g => int_of_float g
      end
  end.
Arguments int_math_sqrt : simpl never.

(** Truthiness of a [str]. *)
Definition str_truthy (s : string) : bool :=
  match s with EmptyString => false | _ => true end.

(** ** The framework interface: types *)

Class TorchTypes : Type := {
  Tensor : Type;        (* torch tensors and autograd Variables *)
  Float : Type;         (* Python floats *)
  nn_Module : Type;     (* an nn.Module object with its parameter store *)
  StateDict : Type;     (* OrderedDict: parameter name -> tensor *)
  Params : Type;        (* the iterable returned by model.parameters() *)
  Criterion : Type;     (* the loss module *)
  Optimizer : Type;     (* optim.Adam *)
  Dataset : Type;       (* the opened HDF5 dataset *)
  DataLoader_t : Type   (* torch.utils.data.DataLoader *)
}.

Section Script.
Context `{TT : TorchTypes}.

(** A batch is the list of tensors collated by the loader. *)
Definition Batch : Type := list Tensor.

(** Values stored in a checkpoint dictionary. *)
Inductive pyval : Type :=
| PyInt (n : Z)
| PyStateDict (sd : StateDict)
| PyModule (m : nn_Module)
| PyNone.

(** What [torch.load] returns: a dictionary with string keys. *)
Local Abbreviation Checkpoint := (gmap string pyval).

(** [d[k]] on a dict. *)
Definition dict_getitem (d : Checkpoint) (k : string) : result pyval :=
  match d !! k with
  | Some v => Return v
  | None => Raise (KeyError k)
  end.

(** [v + 1]: only an [int] supports it among the checkpoint values. *)
Definition py_add_int (v : pyval) (k : Z) : result Z :=
  match v with
  | PyInt n => Return (n + k)
  | _ => Raise (TypeError "unsupported operand type(s) for +")
  end.

(** [v.state_dict()]: only a module has the method. *)
Definition call_state_dict (state_dict : nn_Module -> StateDict) (v : pyval)
  : result pyval :=
  match v with
  | PyModule m => Return (PyStateDict (state_dict m))
  | _ => Raise (AttributeError "state_dict")
  end.

(** ** The options record produced by [parser.parse_args()] *)

Record Options : Type := {
  use_se : bool;
  batchSize : Z;
  rate : Z;
  blocks : Z;
  nEpochs : Z;
  lr : Float;
  step : Z;
  cuda : bool;
  gpus : Z;
  resume : string;
  start_epoch : Z;
  threads : Z;
  momentum : Float;
  weight_decay : Float;
  pretrained : string;
  datasets : string
}.

Definition set_start_epoch (o : Options) (e : Z) : Options :=
  {| use_se := use_se o; batchSize := batchSize o; rate := rate o;
     blocks := blocks o; nEpochs := nEpochs o; lr := lr o; step := step o;
     cuda := cuda o; gpus := gpus o; resume := resume o; start_epoch := e;
     threads := threads o; momentum := momentum o;
     weight_decay := weight_decay o; pretrained := pretrained o;
     datasets := datasets o |}.

(** ** The framework interface: operations *)

Class Torch : Type := {
  (* model/SrSENet.py, not part of this development *)
  Net : Z -> Z -> bool -> result nn_Module;
  L1_Charbonnier_loss : result Criterion;
  (* utils.py, not part of this development: outcome of the call *)
  save_checkpoint_outcome : nn_Module -> Z -> Z -> result unit;
  (* torch.utils.data *)
  DataLoader : Dataset -> Z -> Z -> bool -> result DataLoader_t;
  loader_len : DataLoader_t -> Z;
  loader_iter : DataLoader_t -> nat -> list Batch;
  (* torch.autograd *)
  autograd_Variable : Tensor -> bool -> Tensor;
  tensor_cuda : Tensor -> result Tensor;
  tensor_cpu : Tensor -> result Tensor;
  (* torch.nn *)
  load_state_dict : nn_Module -> pyval -> result nn_Module;
  state_dict : nn_Module -> StateDict;
  DataParallel : nn_Module -> list Z -> result nn_Module;
  module_cuda : nn_Module -> result nn_Module;
  module_cpu : nn_Module -> result nn_Module;
  module_train : nn_Module -> nn_Module;
  parameters : nn_Module -> Params;
  forward : nn_Module -> Tensor -> result Tensor;
  criterion_cuda : Criterion -> result Criterion;
  criterion_cpu : Criterion -> result Criterion;
  criterion_call : Criterion -> Tensor -> Tensor -> result Tensor;
  backward : Tensor -> nn_Module -> result nn_Module;
  loss_data_0 : Tensor -> result Float;
  (* torch.optim *)
  Adam : Params -> Float -> result Optimizer;
  param_groups_0_lr : Optimizer -> Float;
  zero_grad : Optimizer -> nn_Module -> nn_Module;
  optimizer_step : Optimizer -> nn_Module -> result (Optimizer * nn_Module)
}.

(** ** The world outside the process *)

Inductive hdf5_entry : Type :=
| Hdf5Missing
| Hdf5Malformed
| Hdf5Container (d : Dataset).

Record World : Type := {
  cuda_is_available : bool;
  isfile : string -> bool;
  torch_load : string -> result Checkpoint;
  hdf5_at : string -> hdf5_entry
}.

(** Modelled from the spec: [data.DatasetFromHdf5] (data.py is not part of
    this development).  The constructor opens the file, which is its first
    access: a missing or malformed file fails there with an I/O or format
    error; otherwise the aligned tensor datasets are exposed. *)
Definition DatasetFromHdf5 (w : World) (file_path : string) : result Dataset :=
  match hdf5_at w file_path with
  | Hdf5Missing => Raise (IOError file_path)
  | Hdf5Malformed => Raise (FormatError file_path)
  | Hdf5Container d => Return d
  end.

(** ** Observable effects *)

Inductive event : Type :=
| os_system (cmd : string)
| print_opt (o : Options)
| print (msg : string)
| print_epoch (epoch : Z) (lr : Float)
| print_loss (epoch iteration len : Z) (loss : Float)
| SummaryWriter_new
| manual_seed (seed : Z)
| cuda_manual_seed (seed : Z)
| cudnn_benchmark (b : bool)
| add_scalar (tag : string) (value : Float) (global_step : Z)
| save_checkpoint (model : nn_Module) (rate epoch : Z).

(** The process state: the global [opt], everything the process has emitted so
    far in order, and how many passes over the loader have been started. *)
Record state : Type := {
  opt : Options;
  trace : list event;
  passes : nat
}.

Definition init_state (parsed : Options) : state :=
  {| opt := parsed; trace := []; passes := 0 |}.

(** ** A state-and-exception monad *)

Definition M (A : Type) : Type := state -> result A * state.

Definition ret {A} (a : A) : M A := fun s => (Return a, s).
Definition raise {A} (e : exn) : M A := fun s => (Raise e, s).
Definition bind {A B} (m : M A) (k : A -> M B) : M B :=
  fun s => match m s with
           | (Return a, s') => k a s'
           | (Raise e, s') => (Raise e, s')
           end.
Definition lift {A} (r : result A) : M A := fun s => (r, s).
Definition gets {A} (f : Options -> A) : M A := fun s => (Return (f (opt s)), s).
Definition emit (e : event) : M unit :=
  fun s => (Return tt, {| opt := opt s; trace := trace s ++ [e]; passes := passes s |}).
Definition assign_start_epoch (e : Z) : M unit :=
  fun s => (Return tt, {| opt := set_start_epoch (opt s) e; trace := trace s;
                          passes := passes s |}).
Definition next_pass (loader : DataLoader_t) `{Torch} : M (list Batch) :=
  fun s => (Return (loader_iter loader (passes s)),
            {| opt := opt s; trace := trace s; passes := S (passes s) |}).
Definition when (b : bool) (m : M unit) : M unit := if b then m else ret tt.

End Script.

Notation "x <- m ;; k" := (bind m (fun x => k))
  (at level 100, m at next level, right associativity).
Notation "m ;; k" := (bind m (fun _ => k))
  (at level 100, right associativity).

(** ** The script *)

Section Train.
Context `{TO : Torch}.
Variable w : World.

(** Lines 63-70: optionally resume from a checkpoint. *)
Definition resume_step (model : nn_Module) : M nn_Module :=
  path <- gets resume ;;
  if str_truthy path then
    if isfile w path then
      emit (print ("=> loading checkpoint '" +:+ path +:+ "'")) ;;
      checkpoint <- lift (torch_load w path) ;;
      e <- lift (dict_getitem checkpoint "epoch") ;;
      e1 <- lift (py_add_int e 1) ;;
      assign_start_epoch e1 ;;
      sd <- lift (dict_getitem checkpoint "state_dict") ;;
      lift (load_state_dict model sd)
    else
      emit (print ("=> no checkpoint found at '" +:+ path +:+ "'")) ;;
      ret model
  else ret model.

(** Lines 73-79: optionally copy weights from a checkpoint. *)
Definition pretrained_step (model : nn_Module) : M nn_Module :=
  path <- gets pretrained ;;
  if str_truthy path then
    if isfile w path then
      emit (print ("=> loading model '" +:+ path +:+ "'")) ;;
      weights <- lift (torch_load w path) ;;
      inner <- lift (dict_getitem weights "state_dict") ;;
      sd <- lift (call_state_dict state_dict inner) ;;
      lift (load_state_dict model sd)
    else
      emit (print ("=> no model found at '" +:+ path +:+ "'")) ;;
      ret model
  else ret model.

(** Lines 81-87: device placement of the model and the criterion. *)
Definition set_gpu (use_cuda : bool) (model : nn_Module) (criterion : Criterion)
  : M (nn_Module * Criterion) :=
  emit (print "===> Setting GPU") ;;
  if use_cuda then
    n <- gets gpus ;;
    dp <- lift (DataParallel model (py_range 0 n)) ;;
    model' <- lift (module_cuda dp) ;;
    criterion' <- lift (criterion_cuda criterion) ;;
    ret (model', criterion')
  else
    model' <- lift (module_cpu model) ;;
    criterion' <- lift (criterion_cpu criterion) ;;
    ret (model', criterion').

(** The locals of [main] after line 60. *)
Record prepared : Type := {
  p_cuda : bool;
  p_loader : DataLoader_t;
  p_model : nn_Module;
  p_criterion : Criterion
}.

(** What the loop of [main] is handed. *)
Record session : Type := {
  s_loader : DataLoader_t;
  s_optimizer : Optimizer;
  s_model : nn_Module;
  s_criterion : Criterion
}.

(** Lines 37-60 of [main]: the accelerator check, the seeds, the dataset and
    the model.  The global [opt] is the parsed record the initial state starts
    from. *)
Definition prepare : M prepared :=
  o <- gets id ;;
  emit (print_opt o) ;;
  emit SummaryWriter_new ;;
  use_cuda <- gets cuda ;;
  (if use_cuda && negb (cuda_is_available w)
   then raise (Exception "No GPU found, please run without --cuda")
   else ret tt) ;;
  emit (manual_seed 774) ;;
  when use_cuda (emit (cuda_manual_seed 774)) ;;
  emit (cudnn_benchmark true) ;;
  emit (print "===> Loading datasets") ;;
  path <- gets datasets ;;
  train_set <- lift (DatasetFromHdf5 w path) ;;
  nthreads <- gets threads ;;
  bs <- gets batchSize ;;
  training_data_loader <- lift (DataLoader train_set nthreads bs true) ;;
  emit (print "===> Building model") ;;
  nblocks <- gets blocks ;;
  r <- gets rate ;;
  se <- gets use_se ;;
  model <- lift (Net nblocks r se) ;;
  criterion <- lift L1_Charbonnier_loss ;;
  ret {| p_cuda := use_cuda; p_loader := training_data_loader;
         p_model := model; p_criterion := criterion |}.

(** Lines 62-79: the two optional loads, in this order. *)
Definition restore (model : nn_Module) : M nn_Module :=
  model1 <- resume_step model ;;
  pretrained_step model1.

(** Lines 81-90: device placement and the optimizer. *)
Definition finish (p : prepared) (model : nn_Module) : M session :=
  mc <- set_gpu (p_cuda p) model (p_criterion p) ;;
  emit (print "===> Setting Optimizer") ;;
  rate_lr <- gets lr ;;
  optimizer <- lift (Adam (parameters (fst mc)) rate_lr) ;;
  ret {| s_loader := p_loader p; s_optimizer := optimizer;
         s_model := fst mc; s_criterion := snd mc |}.

(** Lines 37-92 of [main]: everything before the epoch loop. *)
Definition setup : M session :=
  p <- prepare ;;
  model <- restore (p_model p) ;;
  ss <- finish p model ;;
  emit (print "===> Training") ;;
  ret ss.

(** Lines 104-106: the input and the label taken from a batch.  The input
    expression is evaluated first. *)
Definition input_label (r : Z) (batch : Batch) : result (Tensor * Tensor) :=
  match py_getitem batch 0 with
  | Raise e => Raise e
  | Return b0 =>
      match int_math_sqrt r with
      | Raise e => Raise e
      | Return k =>
          match py_getitem batch k with
          | Raise e => Raise e
          | Return bk =>
              Return (autograd_Variable b0 false, autograd_Variable bk false)
          end
      end
  end.

(** [x.cuda()] or [x.cpu()], lines 108-113. *)
Definition to_device (use_cuda : bool) (x : Tensor) : result Tensor :=
  if use_cuda then tensor_cuda x else tensor_cpu x.

(** Lines 104-124: the body of the batch loop, for one batch. *)
Definition train_batch (len : Z) (criterion : Criterion) (epoch iteration : Z)
    (batch : Batch) (om : Optimizer * nn_Module) : M (Optimizer * nn_Module) :=
  r <- gets rate ;;
  il <- lift (input_label r batch) ;;
  use_cuda <- gets cuda ;;
  input <- lift (to_device use_cuda (fst il)) ;;
  label <- lift (to_device use_cuda (snd il)) ;;
  sr <- lift (forward (snd om) input) ;;
  loss <- lift (criterion_call criterion label sr) ;;
  model1 <- lift (backward loss (zero_grad (fst om) (snd om))) ;;
  om' <- lift (optimizer_step (fst om) model1) ;;
  (if iteration mod 10 =? 0 then
     v <- lift (loss_data_0 loss) ;;
     emit (print_loss epoch iteration len v) ;;
     v' <- lift (loss_data_0 loss) ;;
     emit (add_scalar "loss" v' (len * epoch + iteration))
   else ret tt) ;;
  ret om'.

(** Line 102: [for iteration, batch in enumerate(training_data_loader, 1)]. *)
Fixpoint train_batches (len : Z) (criterion : Criterion) (epoch iteration : Z)
    (batches : list Batch) (om : Optimizer * nn_Module)
  : M (Optimizer * nn_Module) :=
  match batches with
  | [] => ret om
  | batch :: rest =>
      om' <- train_batch len criterion epoch iteration batch om ;;
      train_batches len criterion epoch (iteration + 1) rest om'
  end.

(** Lines 97-126.  The Python function returns nothing and mutates the model
    and the optimizer; here the updated objects are returned. *)
Definition train (training_data_loader : DataLoader_t) (optimizer : Optimizer)
    (model : nn_Module) (criterion : Criterion) (epoch : Z)
  : M (Optimizer * nn_Module) :=
  emit (print_epoch epoch (param_groups_0_lr optimizer)) ;;
  batches <- next_pass training_data_loader ;;
  om <- train_batches (loader_len training_data_loader) criterion epoch 1
          batches (optimizer, module_train model) ;;
  r <- gets rate ;;
  emit (save_checkpoint (snd om) r epoch) ;;
  lift (save_checkpoint_outcome (snd om) r epoch) ;;
  ret om.

(** Lines 93-94, over the epochs that [range] produced. *)
Fixpoint training_loop (loader : DataLoader_t) (criterion : Criterion)
    (epochs : list Z) (om : Optimizer * nn_Module) : M unit :=
  match epochs with
  | [] => ret tt
  | epoch :: rest =>
      om' <- train loader (fst om) (snd om) criterion epoch ;;
      training_loop loader criterion rest om'
  end.

Definition main : M unit :=
  ss <- setup ;;
  first <- gets start_epoch ;;
  n <- gets nEpochs ;;
  training_loop (s_loader ss) (s_criterion ss) (py_range first (n + 1))
    (s_optimizer ss, s_model ss).

(** Lines 129-131. *)
Definition script : M unit :=
  emit (os_system "clear") ;;
  main.

End Train.

(** ** Projections of the trace *)

Section Projections.
Context `{TT : TorchTypes}.

(** The epochs that were entered: line 98 prints first thing in [train]. *)
Definition epoch_of (e : event) : option Z :=
  match e with print_epoch ep _ => Some ep | _ => None end.
Definition epochs_entered (tr : list event) : list Z := omap epoch_of tr.

(** The epoch tags of the calls of [save_checkpoint]. *)
Definition checkpoint_of (e : event) : option Z :=
  match e with save_checkpoint _ _ ep => Some ep | _ => None end.
Definition checkpoints (tr : list event) : list Z := omap checkpoint_of tr.

(** The scalar log: stream name and step index of every [add_scalar]. *)
Definition log_of (e : event) : option (string * Z) :=
  match e with add_scalar tag _ st => Some (tag, st) | _ => None end.
Definition scalar_log (tr : list event) : list (string * Z) := omap log_of tr.

(** Events that belong to none of the three projections. *)
Definition quiet (e : event) : bool :=
  match e with
  | print_epoch _ _ | add_scalar _ _ _ | save_checkpoint _ _ _ => false
  | _ => true
  end.

(** What the log of one epoch must be when the pass has [n] batches: the
    iterations divisible by 10, each at step [len * epoch + iteration]. *)
Definition logged_iterations (first n : Z) : list Z :=
  filter (fun it => it mod 10 = 0) (py_range first (first + n)).
Definition epoch_log (len epoch first n : Z) : list (string * Z) :=
  map (fun it => ("loss", len * epoch + it)) (logged_iterations first n).
Definition run_log (len : Z) (epochs : list Z) : list (string * Z) :=
  flat_map (fun epoch => epoch_log len epoch 1 len) epochs.

(** ** Vocabulary of the specifications *)

(** [steps R m]: every run of [m] moves the state along [R], whether it
    returns or raises. *)
Definition steps {A} (R : relation state) (m : M A) : Prop :=
  forall s, R s (m s).2.

(** The two relations the script is followed along. *)
Definition same_opt (s s' : state) : Prop := opt s' = opt s.

Definition silent (s s' : state) : Prop :=
  passes s' = passes s /\
  exists evs, trace s' = trace s ++ evs /\ Forall (fun e => quiet e = true) evs.

(** The shape shared by the batch loop's specifications: the options and the
    pass counter are untouched, no epoch mark and no checkpoint is emitted,
    and the scalar log grows by a prefix of [expected], by all of it when the
    computation returns. *)
Definition logs_only {A} (expected : list (string * Z)) (s : state)
    (rs : result A * state) : Prop :=
  opt rs.2 = opt s /\ passes rs.2 = passes s /\
  exists evs, trace rs.2 = trace s ++ evs /\
    epochs_entered evs = [] /\ checkpoints evs = [] /\
    scalar_log evs `prefix_of` expected /\
    (is_Return rs.1 = true -> scalar_log evs = expected).

(** The loader keeps its promise when every pass has [len(loader)] batches. *)
Definition honest_len {TO : @Torch TT} (ld : DataLoader_t) : Prop :=
  forall k, Z.of_nat (length (loader_iter ld k)) = loader_len ld.

(** The state after a message was printed. *)
Definition printed (s : state) (msg : string) : state :=
  {| opt := opt s; trace := trace s ++ [print msg]; passes := passes s |}.

(** The state after [opt.start_epoch] was assigned. *)
Definition with_start_epoch (s : state) (e : Z) : state :=
  {| opt := set_start_epoch (opt s) e; trace := trace s; passes := passes s |}.

(** The resume branch touches no option but [start_epoch]. *)
Definition same_but_start (s s' : state) : Prop :=
  exists e, opt s' = set_start_epoch (opt s) e.

(** The marks of a run in the order they happen: an epoch is entered, a
    scalar is logged, a checkpoint is saved. *)
Inductive mark : Type :=
| Entered (epoch : Z)
| Logged (tag : string) (global_step : Z)
| Saved (epoch : Z).

Definition mark_of (e : event) : option mark :=
  match e with
  | print_epoch ep _ => Some (Entered ep)
  | add_scalar tag _ st => Some (Logged tag st)
  | save_checkpoint _ _ ep => Some (Saved ep)
  | _ => None
  end.
Definition marks (tr : list event) : list mark := omap mark_of tr.

(** The marks of an epoch that completes over [n] batches, and of a run that
    completes over a list of epochs with [len] batches each. *)
Definition epoch_marks (len epoch n : Z) : list mark :=
  Entered epoch ::
  map (fun x : string * Z => Logged x.1 x.2) (epoch_log len epoch 1 n) ++
  [Saved epoch].
Definition run_marks (len : Z) (epochs : list Z) : list mark :=
  flat_map (fun epoch => epoch_marks len epoch len) epochs.

(** Other values for [--step], [--momentum] and [--weight-decay]. *)
Definition with_knobs (o : Options) (st : Z) (mo wd : Float) : Options :=
  {| use_se := use_se o; batchSize := batchSize o; rate := rate o;
     blocks := blocks o; nEpochs := nEpochs o; lr := lr o; step := st;
     cuda := cuda o; gpus := gpus o; resume := resume o;
     start_epoch := start_epoch o; threads := threads o; momentum := mo;
     weight_decay := wd; pretrained := pretrained o; datasets := datasets o |}.

(** The same event, with the three flags replaced where the options are
    printed; the same state, likewise. *)
Definition reprint (st : Z) (mo wd : Float) (e : event) : event :=
  match e with
  | print_opt o => print_opt (with_knobs o st mo wd)
  | _ => e
  end.
Definition reknob (st : Z) (mo wd : Float) (s : state) : state :=
  {| opt := with_knobs (opt s) st mo wd;
     trace := map (reprint st mo wd) (trace s);
     passes := passes s |}.

(** [m] runs the same way from a state and from the state with the three
    flags replaced. *)
Definition blind_to_knobs {A} (st : Z) (mo wd : Float) (m : M A) : Prop :=
  forall s, m (reknob st mo wd s) = ((m s).1, reknob st mo wd (m s).2).

(** The options are still the parsed ones, if they were. *)
Definition still_parsed (parsed : Options) (s s' : state) : Prop :=
  opt s = parsed -> opt s' = parsed.

End Projections.

(** ** An epoch in the words of its description *)

Section Described.
Context `{TO : Torch}.

Definition ok {A} (r : result A) : option A :=
  match r with Return a => Some a | Raise _ => None end.

(** The scalars of a trace with their values: stream, value, step. *)
Definition scalar_of (e : event) : option (string * Float * Z) :=
  match e with add_scalar tag v st => Some (tag, v, st) | _ => None end.
Definition scalars (tr : list event) : list (string * Float * Z) :=
  omap scalar_of tr.

(** One batch step as it is described: the input is the batch's tensor at
    index 0 and the label its tensor at index [int(math.sqrt(rate))]; the
    model is applied to the input, the loss compares the label with the
    output, the gradients are zeroed and computed and the optimizer steps.
    The result is the updated optimizer and model, and the loss. *)
Definition described_step (r : Z) (use_cuda : bool) (criterion : Criterion)
    (batch : Batch) (om : Optimizer * nn_Module)
  : option ((Optimizer * nn_Module) * Tensor) :=
  b0 ← batch !! 0%nat;
  k ← ok (int_math_sqrt r);
  bk ← batch !! Z.to_nat k;
  x ← ok (to_device use_cuda (autograd_Variable b0 false));
  y ← ok (to_device use_cuda (autograd_Variable bk false));
  sr ← ok (forward om.2 x);
  loss ← ok (criterion_call criterion y sr);
  m1 ← ok (backward loss (zero_grad om.1 om.2));
  om' ← ok (optimizer_step om.1 m1);
  Some (om', loss).

(** The batches of a pass as they are described, counted from [it]: every
    batch is stepped in turn, and on an iteration divisible by 10 the value
    of the loss of that step is logged to the stream ["loss"] at the step
    [len * epoch + iteration].  The result is the optimizer and model after
    the last batch, and the scalars in order. *)
Fixpoint described_epoch (len epoch r : Z) (use_cuda : bool)
    (criterion : Criterion) (it : Z) (batches : list Batch)
    (om : Optimizer * nn_Module)
  : option ((Optimizer * nn_Module) * list (string * Float * Z)) :=
  match batches with
  | [] => Some (om, [])
  | batch :: rest =>
      ol ← described_step r use_cuda criterion batch om;
      here ← (if decide (it mod 10 = 0)
              then v ← ok (loss_data_0 ol.2);
                   Some [("loss", v, len * epoch + it)]
              else Some []);
      later ← described_epoch len epoch r use_cuda criterion (it + 1) rest ol.1;
      Some (later.1, here ++ later.2)
  end.

(** Where line 83 or line 86 puts a model. *)
Definition placed (use_cuda : bool) (ngpus : Z) (m m' : nn_Module) : Prop :=
  if use_cuda
  then exists dp, DataParallel m (py_range 0 ngpus) = Return dp /\
                  module_cuda dp = Return m'
  else module_cpu m = Return m'.

End Described.

(** ** A toy framework, to run the script on concrete inputs *)

Module Toy.

Definition toy_types : TorchTypes := {|
  Tensor := Z; Float := Z; nn_Module := list Z; StateDict := list Z;
  Params := list Z; Criterion := unit; Optimizer := Z; Dataset := list (list Z);
  DataLoader_t := list (list Z)
|}.

#[local] Existing Instance toy_types.

(** Weights are a list of integers; an optimizer step increments each. *)
Definition toy_torch : Torch := {|
  Net := fun nblocks r _ => Return [nblocks; r];
  L1_Charbonnier_loss := Return tt;
  save_checkpoint_outcome := fun _ _ _ => Return tt;
  DataLoader := fun d _ bs _ =>
    if bs <=? 0 then Raise (ValueError "batch_size") else Return d;
  loader_len := fun ld => Z.of_nat (length ld);
  loader_iter := fun ld _ => ld;
  autograd_Variable := fun t _ => t;
  tensor_cuda := fun t => Return t;
  tensor_cpu := fun t => Return t;
  load_state_dict := fun m v =>
    match v with
    | PyStateDict sd =>
        if decide (length sd = length m) then Return sd
        else Raise (KeyError "missing keys")
    | _ => Raise (AttributeError "items")
    end;
  state_dict := fun m => m;
  DataParallel := fun m _ => Return m;
  module_cuda := fun m => Return m;
  module_cpu := fun m => Return m;
  module_train := fun m => m;
  parameters := fun m => m;
  forward := fun m x => Return (x + foldr Z.add 0 m);
  criterion_cuda := fun c => Return c;
  criterion_cpu := fun c => Return c;
  criterion_call := fun _ label sr => Return (Z.abs (label - sr));
  backward := fun _ m => Return m;
  loss_data_0 := fun l => Return l;
  Adam := fun _ _ => Return 0;
  param_groups_0_lr := fun _ => 1;
  zero_grad := fun _ m => m;
  optimizer_step := fun o m => Return (o + 1, map Z.succ m)
|}.

Definition toy_options : Options := {|
  use_se := false; batchSize := 64; rate := 2; blocks := 8; nEpochs := 3;
  lr := 1; step := 100; cuda := false; gpus := 4; resume := "";
  start_epoch := 1; threads := 1; momentum := 9; weight_decay := 1;
  pretrained := ""; datasets := "train.h5"
|}.

(** Twelve batches of three tensors each. *)
Definition toy_data : list (list Z) :=
  map (fun i : nat => [Z.of_nat i; 2 * Z.of_nat i; 4 * Z.of_nat i]) (seq 0 12).

Definition saved_at_5 : gmap string pyval :=
  <["epoch" := PyInt 5]> (<["state_dict" := PyStateDict [7; 9]]> ∅).
Definition released_model : gmap string pyval :=
  <["state_dict" := PyModule [3; 4]]> ∅.

Definition toy_world : World := {|
  cuda_is_available := false;
  isfile := fun p => bool_decide (p = "epoch5.pth") || bool_decide (p = "model.pth");
  torch_load := fun p =>
    if bool_decide (p = "epoch5.pth") then Return saved_at_5
    else if bool_decide (p = "model.pth") then Return released_model
    else Raise (IOError p);
  hdf5_at := fun p =>
    if bool_decide (p = "train.h5") then Hdf5Container toy_data
    else if bool_decide (p = "broken.h5") then Hdf5Malformed
    else Hdf5Missing
|}.

Definition with_resume (o : Options) (p : string) : Options :=
  {| use_se := use_se o; batchSize := batchSize o; rate := rate o;
     blocks := blocks o; nEpochs := nEpochs o; lr := lr o; step := step o;
     cuda := cuda o; gpus := gpus o; resume := p; start_epoch := start_epoch o;
     threads := threads o; momentum := momentum o;
     weight_decay := weight_decay o; pretrained := pretrained o;
     datasets := datasets o |}.
Definition with_pretrained (o : Options) (p : string) : Options :=
  {| use_se := use_se o; batchSize := batchSize o; rate := rate o;
     blocks := blocks o; nEpochs := nEpochs o; lr := lr o; step := step o;
     cuda := cuda o; gpus := gpus o; resume := resume o;
     start_epoch := start_epoch o; threads := threads o; momentum := momentum o;
     weight_decay := weight_decay o; pretrained := p; datasets := datasets o |}.
Definition with_nEpochs (o : Options) (n : Z) : Options :=
  {| use_se := use_se o; batchSize := batchSize o; rate := rate o;
     blocks := blocks o; nEpochs := n; lr := lr o; step := step o;
     cuda := cuda o; gpus := gpus o; resume := resume o;
     start_epoch := start_epoch o; threads := threads o; momentum := momentum o;
     weight_decay := weight_decay o; pretrained := pretrained o;
     datasets := datasets o |}.
Definition with_cuda (o : Options) (b : bool) : Options :=
  {| use_se := use_se o; batchSize := batchSize o; rate := rate o;
     blocks := blocks o; nEpochs := nEpochs o; lr := lr o; step := step o;
     cuda := b; gpus := gpus o; resume := resume o;
     start_epoch := start_epoch o; threads := threads o; momentum := momentum o;
     weight_decay := weight_decay o; pretrained := pretrained o;
     datasets := datasets o |}.
Definition with_datasets (o : Options) (p : string) : Options :=
  {| use_se := use_se o; batchSize := batchSize o; rate := rate o;
     blocks := blocks o; nEpochs := nEpochs o; lr := lr o; step := step o;
     cuda := cuda o; gpus := gpus o; resume := resume o;
     start_epoch := start_epoch o; threads := threads o; momentum := momentum o;
     weight_decay := weight_decay o; pretrained := pretrained o;
     datasets := p |}.

End Toy.

(** ** Reasoning about the monad *)

Section Steps.
Context `{TT : TorchTypes}.

Lemma bind_Return {A B} (m : M A) (k : A -> M B) s a s1 :
  m s = (Return a, s1) -> bind m k s = k a s1.
Proof. unfold bind. intros ->. reflexivity. Qed.

Lemma bind_Raise {A B} (m : M A) (k : A -> M B) s e s1 :
  m s = (Raise e, s1) -> bind m k s = (Raise e, s1).
Proof. unfold bind. intros ->. reflexivity. Qed.

Lemma bind_inv {A B} (m : M A) (k : A -> M B) s r s' :
  bind m k s = (r, s') ->
  (exists e, m s = (Raise e, s') /\ r = Raise e) \/
  (exists a s1, m s = (Return a, s1) /\ k a s1 = (r, s')).
Proof.
  unfold bind. destruct (m s) as [[a|e] s1]; intros H.
  - right. eauto.
  - left. inversion H; subst. eauto.
Qed.

Section Preorder.
Variable R : relation state.
Context `{!PreOrder R}.

Lemma steps_ret {A} (a : A) : steps R (ret a).
Proof. intros s. simpl. reflexivity. Qed.

Lemma steps_raise {A} e : steps R (@raise _ A e).
Proof. intros s. simpl. reflexivity. Qed.

Lemma steps_lift {A} (r : result A) : steps R (lift r).
Proof. intros s. simpl. reflexivity. Qed.

Lemma steps_gets {A} (f : Options -> A) : steps R (gets f).
Proof. intros s. simpl. reflexivity. Qed.

Lemma steps_bind {A B} (m : M A) (k : A -> M B) :
  steps R m -> (forall a, steps R (k a)) -> steps R (bind m k).
Proof.
  intros Hm Hk s. unfold bind. specialize (Hm s).
  destruct (m s) as [[a|e] s1]; simpl in *; [|done].
  etrans; [exact Hm|apply Hk].
Qed.

Lemma steps_if {A} (c : bool) (m1 m2 : M A) :
  steps R m1 -> steps R m2 -> steps R (if c then m1 else m2).
Proof. by destruct c. Qed.

Lemma steps_when (c : bool) (m : M unit) : steps R m -> steps R (when c m).
Proof. destruct c; [done|]. intros _. apply steps_ret. Qed.

End Preorder.

#[export] Instance same_opt_po : PreOrder same_opt.
Proof.
  split; [done|]. unfold same_opt. intros s1 s2 s3 H1 H2. congruence.
Qed.

#[export] Instance silent_po : PreOrder silent.
Proof.
  split.
  - intros s. split; [done|]. exists []. by rewrite app_nil_r.
  - intros s1 s2 s3 [Hp1 (e1 & H1 & F1)] [Hp2 (e2 & H2 & F2)]. split; [congruence|].
    exists (e1 ++ e2). rewrite H2, H1, app_assoc. split; [done|].
    by apply Forall_app.
Qed.

Lemma same_opt_emit e : steps same_opt (emit e).
Proof. done. Qed.

Lemma same_opt_next_pass {TO : @Torch TT} ld : steps same_opt (next_pass ld).
Proof. done. Qed.

Lemma silent_emit e : quiet e = true -> steps silent (emit e).
Proof.
  intros Hq s. split; [done|]. exists [e]. split; [done|]. by constructor.
Qed.

Lemma silent_assign e : steps silent (assign_start_epoch e).
Proof. intros s. split; [done|]. exists []. by rewrite app_nil_r. Qed.

Lemma silent_projections (s s' : state) :
  silent s s' ->
  epochs_entered (trace s') = epochs_entered (trace s) /\
  checkpoints (trace s') = checkpoints (trace s) /\
  scalar_log (trace s') = scalar_log (trace s).
Proof.
  intros [_ (evs & -> & F)]. unfold epochs_entered, checkpoints, scalar_log.
  rewrite !omap_app.
  assert (omap epoch_of evs = [] /\ omap checkpoint_of evs = [] /\
          omap log_of evs = []) as (-> & -> & ->).
  { induction F as [|e evs He _ (IH1 & IH2 & IH3)]; [done|].
    destruct e; try discriminate He; cbn [omap list_omap epoch_of checkpoint_of log_of];
      by rewrite ?IH1, ?IH2, ?IH3. }
  by rewrite !app_nil_r.
Qed.

End Steps.

Ltac steps_rule lem := apply lem; try tc_solve.

Ltac steps_tac :=
  repeat first
    [ steps_rule steps_ret
    | steps_rule steps_raise
    | steps_rule steps_lift
    | steps_rule steps_gets
    | apply same_opt_emit
    | apply same_opt_next_pass
    | apply silent_assign
    | apply silent_emit; reflexivity
    | steps_rule steps_when
    | steps_rule steps_if
    | steps_rule steps_bind; [|intros ?] ].

Section ScriptSteps.
Context `{TO : Torch}.
Variable w : World.

Lemma resume_step_silent m : steps silent (resume_step w m).
Proof. unfold resume_step. steps_tac. Qed.

Lemma pretrained_step_silent m : steps silent (pretrained_step w m).
Proof. unfold pretrained_step. steps_tac. Qed.

Lemma pretrained_step_same_opt m : steps same_opt (pretrained_step w m).
Proof. unfold pretrained_step. steps_tac. Qed.

Lemma prepare_silent : steps silent (prepare w).
Proof. unfold prepare. steps_tac. Qed.

Lemma prepare_same_opt : steps same_opt (prepare w).
Proof. unfold prepare. steps_tac. Qed.

Lemma finish_silent p m : steps silent (finish p m).
Proof. unfold finish, set_gpu. steps_tac. Qed.

Lemma finish_same_opt p m : steps same_opt (finish p m).
Proof. unfold finish, set_gpu. steps_tac. Qed.

Lemma restore_silent m : steps silent (restore w m).
Proof.
  unfold restore. steps_rule steps_bind; [apply resume_step_silent|].
  intros ?. apply pretrained_step_silent.
Qed.

Lemma setup_silent : steps silent (setup w).
Proof.
  unfold setup.
  steps_rule steps_bind; [apply prepare_silent|intros p].
  steps_rule steps_bind; [apply restore_silent|intros m].
  steps_rule steps_bind; [apply finish_silent|intros ss].
  steps_tac.
Qed.

End ScriptSteps.

(** ** [range] *)

Section Range.

Lemma py_range_nil a b : b <= a -> py_range a b = [].
Proof. intros H. unfold py_range. by replace (Z.to_nat (b - a)) with 0%nat by lia. Qed.

Lemma py_range_cons a b : a < b -> py_range a b = a :: py_range (a + 1) b.
Proof.
  intros H. unfold py_range.
  replace (Z.to_nat (b - a)) with (S (Z.to_nat (b - (a + 1)))) by lia.
  simpl. f_equal; [lia|].
  rewrite <- seq_shift, map_map. apply map_ext. intros i. lia.
Qed.

Lemma py_range_length a b : length (py_range a b) = Z.to_nat (b - a).
Proof. unfold py_range. by rewrite length_map, length_seq. Qed.

Lemma py_range_lookup a b (i : nat) x :
  py_range a b !! i = Some x <-> x = a + Z.of_nat i /\ a + Z.of_nat i < b.
Proof.
  unfold py_range. rewrite list_lookup_fmap, fmap_Some. split.
  - intros (j & Hj & ->). apply lookup_seq in Hj as [-> Hlt]. lia.
  - intros [-> Hlt]. exists i. split; [|done]. apply lookup_seq. lia.
Qed.

Lemma py_range_elem_of a b x : x ∈ py_range a b <-> a <= x < b.
Proof.
  rewrite list_elem_of_lookup. split.
  - intros [i Hi]. apply py_range_lookup in Hi. lia.
  - intros Hx. exists (Z.to_nat (x - a)). apply py_range_lookup. lia.
Qed.

End Range.

(** ** The epoch loop, piece by piece *)

Section LoopSpecs.
Context `{TO : Torch}.

Lemma logged_iterations_cons first n :
  0 <= n ->
  logged_iterations first (1 + n) =
  (if decide (first mod 10 = 0) then [first] else []) ++
  logged_iterations (first + 1) n.
Proof.
  intros Hn. unfold logged_iterations.
  rewrite (py_range_cons first) by lia.
  replace (first + 1 + n) with (first + (1 + n)) by lia.
  rewrite filter_cons. by destruct (decide (first mod 10 = 0)).
Qed.

Lemma epoch_log_cons len epoch first n :
  0 <= n ->
  epoch_log len epoch first (1 + n) =
  (if decide (first mod 10 = 0) then [("loss", len * epoch + first)] else []) ++
  epoch_log len epoch (first + 1) n.
Proof.
  intros Hn. unfold epoch_log. rewrite logged_iterations_cons by done.
  rewrite map_app. by destruct (decide (first mod 10 = 0)).
Qed.

(** One batch: the state moves by at most the two events of lines 122-124,
    and exactly by them when the batch completes on a tenth iteration. *)
Lemma train_batch_spec len crit epoch it batch om s :
  let rs := train_batch len crit epoch it batch om s in
  let expected :=
    if decide (it mod 10 = 0) then [("loss", len * epoch + it)] else [] in
  opt rs.2 = opt s /\ passes rs.2 = passes s /\
  exists evs, trace rs.2 = trace s ++ evs /\
    epochs_entered evs = [] /\ checkpoints evs = [] /\
    scalar_log evs `prefix_of` expected /\
    (is_Return rs.1 = true -> scalar_log evs = expected).
Proof.
  unfold train_batch, bind, lift, gets, emit, ret. simpl.
  destruct (decide (it mod 10 = 0)) as [E|E];
    [rewrite (proj2 (Z.eqb_eq _ _) E)|rewrite (proj2 (Z.eqb_neq _ _) E)].
  all: repeat case_match; simplify_eq/=.
  all: split; [done|split; [done|]].
  all: first
    [ exists []; rewrite app_nil_r; repeat split; try done; apply prefix_nil
    | eexists [_]; split; [reflexivity|]; repeat split; try done; apply prefix_nil
    | eexists [_; _]; rewrite <- app_assoc; split; [reflexivity|]; by repeat split ].
Qed.

Lemma train_batches_spec len crit epoch batches : forall it om s,
  logs_only (epoch_log len epoch it (Z.of_nat (length batches))) s
    (train_batches len crit epoch it batches om s).
Proof.
  induction batches as [|batch rest IH]; intros it om s.
  - simpl. unfold epoch_log, logged_iterations.
    rewrite py_range_nil by lia. repeat split; try done.
    exists []. rewrite app_nil_r. by repeat split.
  - cbn [train_batches length]. unfold bind.
    replace (Z.of_nat (S (length rest))) with (1 + Z.of_nat (length rest)) by lia.
    rewrite epoch_log_cons by lia.
    pose proof (train_batch_spec len crit epoch it batch om s) as Hb.
    simpl in Hb. destruct Hb as (Ho & Hp & evs & Ht & He & Hc & Hpre & Hret).
    destruct (train_batch len crit epoch it batch om s) as [[om'|e] s1]; simpl in *.
    + destruct (IH (it + 1) om' s1) as (Ho' & Hp' & evs' & Ht' & He' & Hc' & Hpre' & Hret').
      split; [congruence|]. split; [congruence|].
      exists (evs ++ evs'). rewrite Ht', Ht, app_assoc. split; [done|].
      unfold epochs_entered, checkpoints, scalar_log in *. rewrite !omap_app.
      rewrite He, He', Hc, Hc', Hret by done. repeat split; try done.
      * by apply prefix_app.
      * intros Hr. by rewrite Hret'.
    + split; [done|]. split; [done|]. exists evs. repeat split; try done.
      by apply prefix_app_r.
Qed.

(** One epoch.  The events of the call start with the epoch mark; when the
    call returns they end with the one call of [save_checkpoint], tagged with
    the epoch, and the scalar log in between is the epoch's. *)
Lemma train_spec ld o m crit epoch s :
  let rs := train ld o m crit epoch s in
  let n := Z.of_nat (length (loader_iter ld (passes s))) in
  opt rs.2 = opt s /\ passes rs.2 = S (passes s) /\
  exists evs, trace rs.2 = trace s ++ evs /\
    epochs_entered evs = [epoch] /\
    checkpoints evs `prefix_of` [epoch] /\
    scalar_log evs `prefix_of` epoch_log (loader_len ld) epoch 1 n /\
    (forall om, rs.1 = Return om ->
       checkpoints evs = [epoch] /\
       scalar_log evs = epoch_log (loader_len ld) epoch 1 n /\
       last evs = Some (save_checkpoint om.2 (rate (opt s)) epoch)).
Proof.
  unfold train, bind, emit, next_pass, gets, lift, ret. simpl.
  set (s1 := {| opt := opt s;
                trace := trace s ++ [print_epoch epoch (param_groups_0_lr o)];
                passes := S (passes s) |}).
  pose proof (train_batches_spec (loader_len ld) crit epoch
                (loader_iter ld (passes s)) 1 (o, module_train m) s1) as Hb.
  destruct Hb as (Ho & Hp & evs & Ht & He & Hc & Hpre & Hret).
  destruct (train_batches _ _ _ _ _ _ s1) as [[om|e] s2]; simpl in *.
  - destruct (save_checkpoint_outcome om.2 (rate (opt s2)) epoch) as [[]|e];
      simpl; (split; [done|]); (split; [done|]);
      exists (print_epoch epoch (param_groups_0_lr o) :: evs ++
              [save_checkpoint om.2 (rate (opt s2)) epoch]).
    all: rewrite Ht; unfold s1; simpl; rewrite <- !app_assoc; split; [done|].
    all: unfold epochs_entered, checkpoints, scalar_log in *; simpl.
    all: rewrite !omap_app, He, Hc, Hret by done; simpl.
    all: rewrite app_nil_r; repeat split; try done.
    simplify_eq. by rewrite app_comm_cons, last_snoc, Ho.
  - split; [done|]. split; [done|].
    exists (print_epoch epoch (param_groups_0_lr o) :: evs).
    rewrite Ht. unfold s1. simpl. rewrite <- app_assoc. split; [done|].
    unfold epochs_entered, checkpoints, scalar_log in *. simpl.
    rewrite He, Hc. repeat split; try done. apply prefix_nil.
Qed.

(** The epoch loop over a list of epochs. *)
Lemma training_loop_spec ld crit epochs : forall om s,
  let rs := training_loop ld crit epochs om s in
  opt rs.2 = opt s /\
  exists evs, trace rs.2 = trace s ++ evs /\
    epochs_entered evs `prefix_of` epochs /\
    checkpoints evs `prefix_of` epochs_entered evs /\
    (length (epochs_entered evs) <= S (length (checkpoints evs)))%nat /\
    head (epochs_entered evs) = head epochs /\
    (rs.1 = Return tt ->
       epochs_entered evs = epochs /\ checkpoints evs = epochs) /\
    (honest_len ld ->
       scalar_log evs `prefix_of` run_log (loader_len ld) epochs /\
       (rs.1 = Return tt -> scalar_log evs = run_log (loader_len ld) epochs)).
Proof.
  induction epochs as [|epoch rest IH]; intros om s.
  - simpl. split; [done|]. exists []. rewrite app_nil_r.
    repeat split; try done. simpl. lia.
  - cbn [training_loop]. unfold bind.
    pose proof (train_spec ld om.1 om.2 crit epoch s) as Ht. simpl in Ht.
    destruct Ht as (Ho & _ & evs & Ht & He & Hc & Hl & Hret).
    destruct (train ld om.1 om.2 crit epoch s) as [[om'|e] s1]; simpl in *.
    + destruct (Hret om' eq_refl) as (Hc' & Hl' & _).
      destruct (IH om' s1) as (Ho2 & evs2 & Ht2 & He2 & Hc2 & Hlen2 & _ & Hret2 & Hlog2).
      split; [congruence|]. exists (evs ++ evs2).
      rewrite Ht2, Ht, app_assoc. split; [done|].
      unfold epochs_entered, checkpoints, scalar_log in *. rewrite !omap_app.
      rewrite He, Hc'. simpl.
      split; [by apply prefix_cons|]. split; [by apply prefix_cons|].
      split; [lia|]. split; [done|]. split.
      * intros Hr. by destruct (Hret2 Hr) as [-> ->].
      * intros Hh. destruct (Hlog2 Hh) as [Hp2 Heq2].
        rewrite Hl', (Hh (passes s)). split; [by apply prefix_app|].
        intros Hr. by rewrite (Heq2 Hr).
    + split; [done|]. exists evs. split; [done|]. rewrite He.
      split; [apply prefix_cons, prefix_nil|]. split; [done|].
      split; [simpl; lia|]. split; [done|]. split; [done|].
      intros Hh. split; [|done]. rewrite (Hh (passes s)) in Hl.
      by apply prefix_app_r.
Qed.

Section Main.
Variable w : World.

Lemma main_setup_Raise s e s1 :
  setup w s = (Raise e, s1) -> main w s = (Raise e, s1).
Proof. intros H. unfold main. by rewrite (bind_Raise _ _ _ _ _ H). Qed.

Lemma main_setup_Return s ss s1 :
  setup w s = (Return ss, s1) ->
  main w s =
  training_loop (s_loader ss) (s_criterion ss)
    (py_range (start_epoch (opt s1)) (nEpochs (opt s1) + 1))
    (s_optimizer ss, s_model ss) s1.
Proof. intros H. unfold main. by rewrite (bind_Return _ _ _ _ _ H). Qed.

(** Nothing of the three projections is emitted before the loop. *)
Lemma setup_projections parsed :
  let s1 := (setup w (init_state parsed)).2 in
  epochs_entered (trace s1) = [] /\ checkpoints (trace s1) = [] /\
  scalar_log (trace s1) = [] /\ passes s1 = 0%nat.
Proof.
  pose proof (setup_silent w (init_state parsed)) as Hs.
  destruct (silent_projections _ _ Hs) as (H1 & H2 & H3).
  destruct Hs as [Hp _]. by repeat split.
Qed.

(** The whole run, through the three projections of its trace. *)
Lemma main_spec parsed ss s1 :
  setup w (init_state parsed) = (Return ss, s1) ->
  let rs := main w (init_state parsed) in
  let epochs := py_range (start_epoch (opt s1)) (nEpochs (opt s1) + 1) in
  opt rs.2 = opt s1 /\
  epochs_entered (trace rs.2) `prefix_of` epochs /\
  checkpoints (trace rs.2) `prefix_of` epochs_entered (trace rs.2) /\
  (length (epochs_entered (trace rs.2)) <= S (length (checkpoints (trace rs.2))))%nat /\
  head (epochs_entered (trace rs.2)) = head epochs /\
  (rs.1 = Return tt ->
     epochs_entered (trace rs.2) = epochs /\ checkpoints (trace rs.2) = epochs) /\
  (honest_len (s_loader ss) ->
     scalar_log (trace rs.2) `prefix_of` run_log (loader_len (s_loader ss)) epochs /\
     (rs.1 = Return tt ->
        scalar_log (trace rs.2) = run_log (loader_len (s_loader ss)) epochs)).
Proof.
  intros Hs. simpl. rewrite (main_setup_Return _ _ _ Hs).
  pose proof (setup_projections parsed) as Hp. rewrite Hs in Hp. simpl in Hp.
  destruct Hp as (P1 & P2 & P3 & _).
  pose proof (training_loop_spec (s_loader ss) (s_criterion ss)
    (py_range (start_epoch (opt s1)) (nEpochs (opt s1) + 1))
    (s_optimizer ss, s_model ss) s1) as Hl. simpl in Hl.
  destruct Hl as (Ho & evs & Ht & He & Hc & Hlen & Hhd & Hret & Hlog).
  split; [done|]. rewrite Ht.
  unfold epochs_entered, checkpoints, scalar_log in *. rewrite !omap_app.
  rewrite P1, P2, P3. simpl. done.
Qed.

End Main.

End LoopSpecs.

(** ** The two optional loads *)

Section Restore.
Context `{TO : Torch}.
Variable w : World.

Lemma set_start_epoch_id o : set_start_epoch o (start_epoch o) = o.
Proof. by destruct o. Qed.

Lemma set_start_epoch_twice o a b :
  set_start_epoch (set_start_epoch o a) b = set_start_epoch o b.
Proof. done. Qed.

Lemma str_truthy_true p : str_truthy p = true <-> p <> "".
Proof. destruct p; simpl; split; intros; congruence. Qed.

Lemma resume_step_off m s :
  resume (opt s) = "" -> resume_step w m s = (Return m, s).
Proof. intros H. unfold resume_step, bind, gets. simpl. by rewrite H. Qed.

Lemma resume_step_missing m s :
  resume (opt s) <> "" -> isfile w (resume (opt s)) = false ->
  resume_step w m s =
  (Return m, printed s ("=> no checkpoint found at '" +:+ resume (opt s) +:+ "'")).
Proof.
  intros H1 H2. apply str_truthy_true in H1.
  unfold resume_step, bind, gets. simpl. by rewrite H1, H2.
Qed.

Lemma resume_step_loads m s ckpt E :
  resume (opt s) <> "" -> isfile w (resume (opt s)) = true ->
  torch_load w (resume (opt s)) = Return ckpt ->
  ckpt !! "epoch" = Some (PyInt E) ->
  resume_step w m s =
  (match ckpt !! "state_dict" with
   | Some v => load_state_dict m v
   | None => Raise (KeyError "state_dict")
   end,
   with_start_epoch
     (printed s ("=> loading checkpoint '" +:+ resume (opt s) +:+ "'")) (E + 1)).
Proof.
  intros H1 H2 H3 H4. apply str_truthy_true in H1.
  unfold resume_step, bind, gets, emit, lift, dict_getitem. simpl.
  rewrite H1, H2, H3, H4. simpl.
  by destruct (ckpt !! "state_dict") as [v|]; [destruct (load_state_dict m v)|].
Qed.

Lemma pretrained_step_off m s :
  pretrained (opt s) = "" -> pretrained_step w m s = (Return m, s).
Proof. intros H. unfold pretrained_step, bind, gets. simpl. by rewrite H. Qed.


Lemma pretrained_step_loads m s weights :
  pretrained (opt s) <> "" -> isfile w (pretrained (opt s)) = true ->
  torch_load w (pretrained (opt s)) = Return weights ->
  pretrained_step w m s =
  (match weights !! "state_dict" with
   | Some (PyModule inner) => load_state_dict m (PyStateDict (state_dict inner))
   | Some _ => Raise (AttributeError "state_dict")
   | None => Raise (KeyError "state_dict")
   end,
   printed s ("=> loading model '" +:+ pretrained (opt s) +:+ "'")).
Proof.
  intros H1 H2 H3. apply str_truthy_true in H1.
  unfold pretrained_step, bind, gets, emit, lift, dict_getitem. simpl.
  rewrite H1, H2, H3. simpl.
  destruct (weights !! "state_dict") as [[| |inner|]|]; try done.
Qed.

#[export] Instance same_but_start_po : PreOrder same_but_start.
Proof.
  split.
  - intros s. exists (start_epoch (opt s)). by rewrite set_start_epoch_id.
  - intros s1 s2 s3 [a Ha] [b Hb]. exists b. by rewrite Hb, Ha.
Qed.

Lemma same_opt_but_start {A} (m : M A) :
  steps same_opt m -> steps same_but_start m.
Proof.
  intros H s. exists (start_epoch (opt s)). rewrite (H s).
  by rewrite set_start_epoch_id.
Qed.

Lemma same_but_start_assign e : steps same_but_start (assign_start_epoch e).
Proof. intros s. by exists e. Qed.

Lemma resume_step_same_but_start m : steps same_but_start (resume_step w m).
Proof.
  unfold resume_step.
  repeat first
    [ apply same_but_start_assign
    | apply same_opt_but_start, same_opt_emit
    | steps_rule steps_ret | steps_rule steps_lift | steps_rule steps_gets
    | steps_rule steps_if | steps_rule steps_bind; [|intros ?] ].
Qed.

(** Lines 37-92 taken apart. *)
Lemma setup_inv s ss s1 :
  setup w s = (Return ss, s1) ->
  exists p sa m1 sb m2 sc sd,
    prepare w s = (Return p, sa) /\
    resume_step w (p_model p) sa = (Return m1, sb) /\
    pretrained_step w m1 sb = (Return m2, sc) /\
    finish p m2 sc = (Return ss, sd) /\
    s1 = printed sd "===> Training" /\
    opt sa = opt s /\ opt sc = opt sb /\ opt sd = opt sc.
Proof.
  unfold setup, restore. intros H.
  apply bind_inv in H as [(e & _ & [=])|(p & sa & Hp & H)].
  apply bind_inv in H as [(e & _ & [=])|(m2 & sc & Hr & H)].
  apply bind_inv in Hr as [(e & _ & [=])|(m1 & sb & Hr1 & Hr2)].
  apply bind_inv in H as [(e & _ & [=])|(ss' & sd & Hf & H)].
  unfold bind, emit, ret in H. simpl in H. injection H as <- <-.
  exists p, sa, m1, sb, m2, sc, sd. repeat split; try done.
  - pose proof (prepare_same_opt w s) as Ho. by rewrite Hp in Ho.
  - pose proof (pretrained_step_same_opt w m1 sb) as Ho. by rewrite Hr2 in Ho.
  - pose proof (finish_same_opt p m2 sc) as Ho. by rewrite Hf in Ho.
Qed.

Lemma setup_same_but_start : steps same_but_start (setup w).
Proof.
  unfold setup, restore.
  steps_rule steps_bind; [apply same_opt_but_start, prepare_same_opt|intros p].
  steps_rule steps_bind.
  { steps_rule steps_bind; [apply resume_step_same_but_start|intros m].
    apply same_opt_but_start, pretrained_step_same_opt. }
  intros m. steps_rule steps_bind; [apply same_opt_but_start, finish_same_opt|].
  intros ss. apply same_opt_but_start. steps_tac.
Qed.

Lemma setup_nEpochs parsed : nEpochs (opt (setup w (init_state parsed)).2) = nEpochs parsed.
Proof. destruct (setup_same_but_start (init_state parsed)) as [e ->]. done. Qed.

(** The optimizer is built afresh over the parameters of the placed model. *)
Lemma finish_inv p m s ss s' :
  finish p m s = (Return ss, s') ->
  s_loader ss = p_loader p /\
  Adam (parameters (s_model ss)) (lr (opt s)) = Return (s_optimizer ss) /\
  (p_cuda p = false -> module_cpu m = Return (s_model ss)).
Proof.
  unfold finish, set_gpu, bind, emit, gets, lift, ret. simpl.
  destruct (p_cuda p); simpl; repeat case_match; simplify_eq/=; try done.
  all: intros; simplify_eq/=; done.
Qed.

End Restore.

(** ** The step indices of the scalar log increase *)

Section Monotone.

Lemma py_range_sorted a b : StronglySorted Z.lt (py_range a b).
Proof.
  remember (Z.to_nat (b - a)) as n eqn:Hn. revert a Hn.
  induction n as [|n IH]; intros a Hn.
  - rewrite py_range_nil by lia. constructor.
  - rewrite py_range_cons by lia. constructor; [apply IH; lia|].
    apply Forall_forall. intros x Hx. apply py_range_elem_of in Hx. lia.
Qed.

Lemma sorted_filter {A} (R : relation A) (P : A -> Prop)
    `{!forall x, Decision (P x)} (l : list A) :
  StronglySorted R l -> StronglySorted R (filter P l).
Proof.
  induction 1 as [|x l Hs IH Hx]; [constructor|].
  rewrite filter_cons. destruct (decide (P x)); [|done].
  constructor; [done|]. apply Forall_forall. intros y Hy.
  apply list_elem_of_filter in Hy as [_ Hy].
  by eapply Forall_forall in Hx.
Qed.

Lemma sorted_prefix {A} (R : relation A) (l1 l2 : list A) :
  l1 `prefix_of` l2 -> StronglySorted R l2 -> StronglySorted R l1.
Proof. intros [k ->]. apply StronglySorted_app_1_l. Qed.

Lemma prefix_fmap {A B} (f : A -> B) (l1 l2 : list A) :
  l1 `prefix_of` l2 -> f <$> l1 `prefix_of` f <$> l2.
Proof. intros [k ->]. rewrite fmap_app. by eexists. Qed.

Lemma sorted_lookup {A} (R : relation A) (l : list A) (i j : nat) x y :
  StronglySorted R l -> (i < j)%nat ->
  l !! i = Some x -> l !! j = Some y -> R x y.
Proof.
  intros Hs. revert i j. induction Hs as [|a l Hs IH Ha]; intros i j Hij Hi Hj.
  - done.
  - destruct j as [|j]; [lia|]. destruct i as [|i]; simpl in *.
    + injection Hi as ->. eapply Forall_lookup_1; eauto.
    + eapply IH; [|done..]. lia.
Qed.

Lemma epoch_log_elem len e first n x :
  x ∈ epoch_log len e first n <->
  exists it, first <= it < first + n /\ it mod 10 = 0 /\
             x = ("loss", len * e + it).
Proof.
  unfold epoch_log, logged_iterations.
  rewrite (list_elem_of_fmap (fun it => ("loss", len * e + it))). split.
  - intros (it & -> & Hit). apply list_elem_of_filter in Hit as [Hm Hr].
    apply py_range_elem_of in Hr. eauto.
  - intros (it & Hr & Hm & ->). exists it. split; [done|].
    apply list_elem_of_filter. split; [done|]. by apply py_range_elem_of.
Qed.

Lemma epoch_log_sorted len e first n :
  StronglySorted Z.lt (epoch_log len e first n).*2.
Proof.
  unfold epoch_log, logged_iterations.
  change (StronglySorted Z.lt
            (snd <$> ((fun it => ("loss", len * e + it)) <$>
               filter (fun it => it mod 10 = 0) (py_range first (first + n))))).
  rewrite <- list_fmap_compose.
  apply StronglySorted_fmap with (R1 := Z.lt); [simpl; intros; lia|].
  apply sorted_filter, py_range_sorted.
Qed.

Lemma run_log_elem len epochs x :
  x ∈ run_log len epochs <->
  exists e it, e ∈ epochs /\ 1 <= it <= len /\ it mod 10 = 0 /\
               x = ("loss", len * e + it).
Proof.
  unfold run_log. induction epochs as [|e rest IH]; simpl.
  - split; [by intros ?%elem_of_nil|]. by intros (? & ? & ?%elem_of_nil & _).
  - rewrite elem_of_app, IH, epoch_log_elem. split.
    + intros [(it & Hr & Hm & ->)|(e' & it & He & Hr & Hm & ->)].
      * exists e, it. repeat split; try done; [left|lia|lia].
      * exists e', it. repeat split; try done; [by right|lia|lia].
    + intros (e' & it & He & Hr & Hm & ->).
      apply elem_of_cons in He as [->|He].
      * left. exists it. repeat split; try done; lia.
      * right. exists e', it. repeat split; try done; lia.
Qed.

Lemma run_log_sorted len epochs :
  0 <= len -> StronglySorted Z.lt epochs ->
  StronglySorted Z.lt (run_log len epochs).*2.
Proof.
  intros Hlen Hs. induction Hs as [|e rest Hs IH He]; [constructor|].
  unfold run_log in *. simpl. rewrite fmap_app.
  apply StronglySorted_app_2; [|apply epoch_log_sorted|done].
  intros x1 x2 H1 H2.
  apply list_elem_of_fmap in H1 as ([t1 y1] & -> & H1).
  apply list_elem_of_fmap in H2 as ([t2 y2] & -> & H2).
  apply epoch_log_elem in H1 as (it1 & Hr1 & _ & [= _ ->]).
  apply (run_log_elem len rest) in H2 as (e2 & it2 & He2 & Hr2 & _ & [= _ ->]).
  eapply Forall_forall in He; [|done]. simpl. nia.
Qed.

End Monotone.

(** ** The properties of the script *)

Section Claims.
Context `{TO : Torch}.
Variable w : World.

(** C5.  When [--cuda] is requested and no CUDA device is available, [main]
    raises at line 44.  The only things done before are printing the options
    and creating the summary writer: the dataset is not opened, the model is
    not built, no pass over the loader is started and no epoch is entered. *)
Theorem no_gpu_raises_first (parsed : Options) :
  cuda parsed = true -> cuda_is_available w = false ->
  main w (init_state parsed) =
  (Raise (Exception "No GPU found, please run without --cuda"),
   {| opt := parsed; trace := [print_opt parsed; SummaryWriter_new];
      passes := 0 |}).
Proof.
  intros Hc Ha.
  unfold main, setup, prepare, bind, gets, emit, raise, init_state. simpl.
  by rewrite Hc, Ha.
Qed.

(** C8.  A dataset path that is missing or malformed makes the constructor of
    line 54 raise; the run then ends with an exception, without having
    entered an epoch, logged a scalar, saved a checkpoint or started a pass
    over the loader.  Unless the accelerator check failed first, the
    exception is the I/O or format error of the dataset. *)
Theorem bad_dataset_aborts_before_loop (parsed : Options) :
  hdf5_at w (datasets parsed) = Hdf5Missing \/
  hdf5_at w (datasets parsed) = Hdf5Malformed ->
  let rs := main w (init_state parsed) in
  is_Return (DatasetFromHdf5 w (datasets parsed)) = false /\
  is_Return rs.1 = false /\
  epochs_entered (trace rs.2) = [] /\
  checkpoints (trace rs.2) = [] /\
  scalar_log (trace rs.2) = [] /\
  passes rs.2 = 0%nat /\
  (cuda parsed && negb (cuda_is_available w) = false ->
     rs.1 = Raise (IOError (datasets parsed)) \/
     rs.1 = Raise (FormatError (datasets parsed))).
Proof.
  intros Hd.
  unfold main, setup, prepare, bind, gets, emit, raise, lift, when, ret,
    init_state, DatasetFromHdf5.
  simpl.
  destruct (cuda parsed), (cuda_is_available w); simpl;
    destruct Hd as [-> | ->]; simpl; repeat split; try done; auto.
Qed.

End Claims.

Section RestoreClaims.
Context `{TO : Torch}.
Variable w : World.

Lemma prepare_inv s p s' :
  prepare w s = (Return p, s') ->
  p_cuda p = cuda (opt s) /\
  Net (blocks (opt s)) (rate (opt s)) (use_se (opt s)) = Return (p_model p).
Proof.
  unfold prepare, bind, gets, emit, raise, lift, when, ret. simpl.
  intros H. repeat (case_match; simplify_eq/=); done.
Qed.

(** When the resume checkpoint loads, the loop starts after its epoch. *)
Lemma setup_start_epoch_resumed parsed ckpt E ss s1 :
  resume parsed <> "" -> isfile w (resume parsed) = true ->
  torch_load w (resume parsed) = Return ckpt ->
  ckpt !! "epoch" = Some (PyInt E) ->
  setup w (init_state parsed) = (Return ss, s1) ->
  start_epoch (opt s1) = E + 1.
Proof.
  intros H1 H2 H3 H4 Hs.
  apply setup_inv in Hs
    as (p & sa & m1 & sb & m2 & sc & sd & Hp & Hr & _ & _ & -> & Ha & Hc & Hd).
  simpl in Ha. simpl. rewrite Hd, Hc.
  rewrite (resume_step_loads w _ sa ckpt E) in Hr by (by rewrite ?Ha).
  by injection Hr as _ <-.
Qed.

(** When no resume checkpoint is loaded, the parsed options reach the loop. *)
Lemma setup_opt_kept parsed ss s1 :
  resume parsed = "" \/ isfile w (resume parsed) = false ->
  setup w (init_state parsed) = (Return ss, s1) ->
  opt s1 = parsed.
Proof.
  intros Hno Hs.
  apply setup_inv in Hs
    as (p & sa & m1 & sb & m2 & sc & sd & Hp & Hr & _ & _ & -> & Ha & Hc & Hd).
  simpl in Ha. simpl. rewrite Hd, Hc.
  destruct (decide (resume parsed = "")) as [He|He].
  - rewrite resume_step_off in Hr by (by rewrite ?Ha). by injection Hr as _ <-.
  - destruct Hno as [?|Hf]; [done|].
    rewrite resume_step_missing in Hr by (by rewrite ?Ha).
    by injection Hr as _ <-.
Qed.

(** C1.  When [--resume] names an existing file whose checkpoint holds an
    integer epoch [E] and a ["state_dict"] entry [v], the resume branch sets
    the start epoch to [E + 1] and loads [v] into the model.  In a run that
    reaches the loop, the model was built by [Net] and then loaded from [v]
    (and, when no pretrained model is given and the CPU is used, it is this
    model that is placed and handed to the optimizer), the loop runs over
    [range(E + 1, nEpochs + 1)], and the first epoch entered, if there is
    one, is [E + 1]. *)
Theorem resume_restores_and_advances (parsed : Options) ckpt E v :
  resume parsed <> "" -> isfile w (resume parsed) = true ->
  torch_load w (resume parsed) = Return ckpt ->
  ckpt !! "epoch" = Some (PyInt E) ->
  ckpt !! "state_dict" = Some v ->
  (forall m s, opt s = parsed ->
     resume_step w m s =
     (load_state_dict m v,
      with_start_epoch
        (printed s ("=> loading checkpoint '" +:+ resume parsed +:+ "'"))
        (E + 1))) /\
  (forall ss s1, setup w (init_state parsed) = (Return ss, s1) ->
     start_epoch (opt s1) = E + 1 /\
     (exists m0 m1,
        Net (blocks parsed) (rate parsed) (use_se parsed) = Return m0 /\
        load_state_dict m0 v = Return m1 /\
        (pretrained parsed = "" -> cuda parsed = false ->
         module_cpu m1 = Return (s_model ss))) /\
     Adam (parameters (s_model ss)) (lr parsed) = Return (s_optimizer ss) /\
     let rs := main w (init_state parsed) in
     epochs_entered (trace rs.2) `prefix_of` py_range (E + 1) (nEpochs parsed + 1) /\
     (E + 1 <= nEpochs parsed -> head (epochs_entered (trace rs.2)) = Some (E + 1)) /\
     (rs.1 = Return tt ->
        epochs_entered (trace rs.2) = py_range (E + 1) (nEpochs parsed + 1))).
Proof.
  intros H1 H2 H3 H4 H5. split.
  - intros m s <-. rewrite (resume_step_loads w m s ckpt E) by done.
    by rewrite H5.
  - intros ss s1 Hs.
    pose proof (setup_start_epoch_resumed _ _ _ _ _ H1 H2 H3 H4 Hs) as Hstart.
    pose proof (setup_nEpochs w parsed) as Hn. rewrite Hs in Hn. simpl in Hn.
    split; [done|].
    pose proof (main_spec w parsed ss s1 Hs) as Hm. simpl in Hm.
    rewrite Hstart, Hn in Hm.
    destruct Hm as (_ & Hpre & _ & _ & Hhd & Hret & _).
    apply setup_inv in Hs
      as (p & sa & m1 & sb & m2 & sc & sd & Hp & Hr & Hpt & Hf & -> & Ha & Hc & Hd).
    simpl in Ha.
    apply prepare_inv in Hp as [Hcu Hnet]. simpl in Hcu, Hnet.
    rewrite (resume_step_loads w _ sa ckpt E) in Hr by (by rewrite ?Ha).
    rewrite H5 in Hr. injection Hr as Hload Hsb.
    apply finish_inv in Hf as (_ & Hadam & Hcpu).
    assert (opt sc = set_start_epoch parsed (E + 1)) as Hoc.
    { rewrite Hc, <- Hsb. simpl. by rewrite Ha. }
    rewrite Hoc in Hadam. simpl in Hadam.
    split; [|split; [done|]].
    + exists (p_model p), m1. repeat split; try done.
      intros Hnp Hnc.
      rewrite pretrained_step_off in Hpt.
      * injection Hpt as -> _. apply Hcpu. by rewrite Hcu.
      * rewrite <- Hsb. simpl. by rewrite Ha.
    + repeat split; try done.
      * intros Hle. rewrite Hhd. by rewrite py_range_cons by lia.
      * intros Hr. by apply Hret.
Qed.

(** C10.  When the resume checkpoint loads, the value of [--start-epoch] is
    overwritten: the resume branch ends in the same state whatever it was,
    and the loop starts at the checkpoint's epoch plus one.  When no resume
    checkpoint is loaded (no path, or not a file) the value of the flag is
    the start of the loop. *)
Theorem start_epoch_flag_overridden :
  (forall (parsed : Options) ckpt E,
     resume parsed <> "" -> isfile w (resume parsed) = true ->
     torch_load w (resume parsed) = Return ckpt ->
     ckpt !! "epoch" = Some (PyInt E) ->
     (forall a m s, opt s = parsed ->
        resume_step w m (with_start_epoch s a) = resume_step w m s) /\
     (forall a ss s1,
        setup w (init_state (set_start_epoch parsed a)) = (Return ss, s1) ->
        start_epoch (opt s1) = E + 1 /\
        let rs := main w (init_state (set_start_epoch parsed a)) in
        epochs_entered (trace rs.2)
          `prefix_of` py_range (E + 1) (nEpochs parsed + 1) /\
        (rs.1 = Return tt ->
           epochs_entered (trace rs.2) = py_range (E + 1) (nEpochs parsed + 1)))) /\
  (forall (parsed : Options) ss s1,
     resume parsed = "" \/ isfile w (resume parsed) = false ->
     setup w (init_state parsed) = (Return ss, s1) ->
     start_epoch (opt s1) = start_epoch parsed).
Proof.
  split.
  - intros parsed ckpt E H1 H2 H3 H4. split.
    + intros a m s <-.
      rewrite (resume_step_loads w m s ckpt E) by done.
      by rewrite (resume_step_loads w m (with_start_epoch s a) ckpt E) by done.
    + intros a ss s1 Hs.
      assert (start_epoch (opt s1) = E + 1) as Hstart.
      { by eapply (setup_start_epoch_resumed (set_start_epoch parsed a)). }
      split; [done|].
      pose proof (setup_nEpochs w (set_start_epoch parsed a)) as Hn.
      rewrite Hs in Hn. simpl in Hn.
      pose proof (main_spec w _ ss s1 Hs) as Hm. simpl in Hm.
      rewrite Hstart, Hn in Hm.
      destruct Hm as (_ & Hpre & _ & _ & _ & Hret & _).
      split; [done|]. intros Hr. by apply Hret.
  - intros parsed ss s1 Hno Hs. by rewrite (setup_opt_kept parsed ss s1).
Qed.

End RestoreClaims.

Section PretrainedClaims.
Context `{TO : Torch}.
Variable w : World.


End PretrainedClaims.

Section LoopClaims.
Context `{TO : Torch}.
Variable w : World.

Lemma py_range_NoDup a b : NoDup (py_range a b).
Proof.
  unfold py_range. apply NoDup_fmap_2_strong; [|apply NoDup_seq].
  intros i j _ _ H. lia.
Qed.

Lemma NoDup_prefix {A} (l1 l2 : list A) :
  l1 `prefix_of` l2 -> NoDup l2 -> NoDup l1.
Proof. intros [k ->] H. by apply NoDup_app in H as [H _]. Qed.

(** The projections of any run, whether the setup succeeded or not. *)
Lemma main_projections parsed :
  let rs := main w (init_state parsed) in
  let tr := trace rs.2 in
  epochs_entered tr
    `prefix_of` py_range (start_epoch (opt rs.2)) (nEpochs parsed + 1) /\
  checkpoints tr `prefix_of` epochs_entered tr /\
  (length (epochs_entered tr) <= S (length (checkpoints tr)))%nat /\
  (rs.1 = Return tt -> checkpoints tr = epochs_entered tr).
Proof.
  simpl.
  destruct (setup w (init_state parsed)) as [[ss|e] s1] eqn:Hs.
  - pose proof (main_spec w parsed ss s1 Hs) as Hm. simpl in Hm.
    pose proof (setup_nEpochs w parsed) as Hn. rewrite Hs in Hn. simpl in Hn.
    destruct Hm as (Ho & Hpre & Hc & Hlen & _ & Hret & _).
    rewrite Ho, <- Hn. repeat split; try done.
    intros Hr. destruct (Hret Hr) as [-> ->]. done.
  - rewrite (main_setup_Raise w _ _ _ Hs). simpl.
    pose proof (setup_projections w parsed) as Hp. rewrite Hs in Hp.
    simpl in Hp. destruct Hp as (-> & -> & _ & _).
    repeat split; try done; [apply prefix_nil|simpl; lia].
Qed.

(** C2.  In a run whose setup succeeds, the epochs entered are, in this
    order, an initial part of [range(start_epoch, nEpochs + 1)], that is of
    [start_epoch, start_epoch + 1, ..., nEpochs]; when the run returns they
    are all of it, and each of them was run to its checkpoint.  When
    [start_epoch] exceeds [nEpochs] the loop does nothing and the run
    returns in the state the setup left. *)
Theorem epochs_run_in_order (parsed : Options) ss s1 :
  setup w (init_state parsed) = (Return ss, s1) ->
  let first := start_epoch (opt s1) in
  let n := nEpochs parsed in
  let rs := main w (init_state parsed) in
  epochs_entered (trace rs.2) `prefix_of` py_range first (n + 1) /\
  (rs.1 = Return tt ->
     epochs_entered (trace rs.2) = py_range first (n + 1) /\
     checkpoints (trace rs.2) = py_range first (n + 1)) /\
  (forall (i : nat) e,
     py_range first (n + 1) !! i = Some e <->
     e = first + Z.of_nat i /\ e <= n) /\
  (n < first -> rs = (Return tt, s1)).
Proof.
  intros Hs. simpl.
  pose proof (main_spec w parsed ss s1 Hs) as Hm. simpl in Hm.
  pose proof (setup_nEpochs w parsed) as Hn. rewrite Hs in Hn. simpl in Hn.
  rewrite Hn in Hm. destruct Hm as (_ & Hpre & _ & _ & _ & Hret & _).
  repeat split; try done.
  - by apply Hret.
  - by apply Hret.
  - apply py_range_lookup in H. lia.
  - apply py_range_lookup in H. lia.
  - intros [-> Hle]. apply py_range_lookup. lia.
  - intros Hlt. rewrite (main_setup_Return w _ _ _ Hs), Hn.
    by rewrite py_range_nil by lia.
Qed.

(** C3.  A call of [train] that returns has called [save_checkpoint] exactly
    once, as its last action, with the epoch it was given, whatever the
    loader yielded and whatever the losses were.  In a run, the checkpoint
    tags are the epochs entered, in order and without repetition, the last
    epoch entered being possibly without its checkpoint only when the run
    raised. *)
Theorem checkpoint_once_per_epoch :
  (forall ld o m crit epoch s om s',
     train ld o m crit epoch s = (Return om, s') ->
     exists evs,
       trace s' = trace s ++ evs /\
       last evs = Some (save_checkpoint om.2 (rate (opt s)) epoch) /\
       checkpoints evs = [epoch] /\
       epochs_entered evs = [epoch]) /\
  (forall parsed,
     let rs := main w (init_state parsed) in
     let tr := trace rs.2 in
     checkpoints tr `prefix_of` epochs_entered tr /\
     (length (epochs_entered tr) <= S (length (checkpoints tr)))%nat /\
     NoDup (checkpoints tr) /\
     (rs.1 = Return tt -> checkpoints tr = epochs_entered tr)).
Proof.
  split.
  - intros ld o m crit epoch s om s' H.
    pose proof (train_spec ld o m crit epoch s) as Ht. simpl in Ht.
    rewrite H in Ht. simpl in Ht.
    destruct Ht as (_ & _ & evs & Htr & He & _ & _ & Hret).
    destruct (Hret om eq_refl) as (Hc & _ & Hlast).
    exists evs. by repeat split.
  - intros parsed.
    destruct (main_projections parsed) as (Hpre & Hc & Hlen & Hret).
    repeat split; try done.
    eapply NoDup_prefix; [exact Hc|].
    eapply NoDup_prefix; [exact Hpre|]. apply py_range_NoDup.
Qed.

End LoopClaims.

(** ** The properties on the toy framework *)

Section Witnesses.
Import Toy.
#[local] Existing Instance toy_types.
#[local] Existing Instance toy_torch.

Lemma no_gpu_raises_first_witness :
  let parsed := with_cuda toy_options true in
  cuda parsed = true /\ cuda_is_available toy_world = false /\
  main toy_world (init_state parsed) =
  (Raise (Exception "No GPU found, please run without --cuda"),
   {| opt := parsed; trace := [print_opt parsed; SummaryWriter_new];
      passes := 0 |}).
Proof.
  split; [reflexivity|]. split; [reflexivity|].
  apply (no_gpu_raises_first toy_world); reflexivity.
Defined.

Lemma bad_dataset_aborts_before_loop_witness :
  let parsed := with_datasets toy_options "broken.h5" in
  hdf5_at toy_world (datasets parsed) = Hdf5Malformed /\
  (main toy_world (init_state parsed)).1 = Raise (FormatError "broken.h5") /\
  epochs_entered (trace (main toy_world (init_state parsed)).2) = [].
Proof.
  intros parsed. split; [reflexivity|].
  destruct (bad_dataset_aborts_before_loop toy_world parsed
              (or_intror eq_refl)) as (_ & _ & He & _ & _ & _ & Hr).
  split; [|exact He].
  destruct (Hr eq_refl) as [H|H]; [|exact H].
  vm_compute in H. discriminate H.
Defined.

Lemma resume_restores_and_advances_witness :
  let parsed := with_nEpochs (with_resume toy_options "epoch5.pth") 7 in
  resume parsed <> "" /\
  isfile toy_world (resume parsed) = true /\
  torch_load toy_world (resume parsed) = Return saved_at_5 /\
  saved_at_5 !! "epoch" = Some (PyInt 5) /\
  saved_at_5 !! "state_dict" = Some (PyStateDict [7; 9]) /\
  start_epoch (opt (setup toy_world (init_state parsed)).2) = 6 /\
  epochs_entered (trace (main toy_world (init_state parsed)).2) = [6; 7].
Proof.
  intros parsed.
  assert (resume parsed <> "") as H1 by discriminate.
  assert (isfile toy_world (resume parsed) = true) as H2 by reflexivity.
  assert (torch_load toy_world (resume parsed) = Return saved_at_5) as H3
    by reflexivity.
  assert (saved_at_5 !! "epoch" = Some (PyInt 5)) as H4
    by (vm_compute; reflexivity).
  assert (saved_at_5 !! "state_dict" = Some (PyStateDict [7; 9])) as H5
    by (vm_compute; reflexivity).
  repeat (split; [assumption|]).
  destruct (setup toy_world (init_state parsed)) as [[ss|e] s1] eqn:Hs;
    [|vm_compute in Hs; discriminate Hs].
  destruct (resume_restores_and_advances toy_world parsed saved_at_5 5
              (@PyStateDict toy_types [7; 9]) H1 H2 H3 H4 H5) as [_ H].
  destruct (H ss s1 Hs) as (Hstart & _ & _ & _ & _ & Hret).
  split; [exact Hstart|]. apply Hret. vm_compute. reflexivity.
Defined.

Lemma start_epoch_flag_overridden_witness :
  let parsed := with_resume toy_options "epoch5.pth" in
  resume parsed <> "" /\
  isfile toy_world (resume parsed) = true /\
  torch_load toy_world (resume parsed) = Return saved_at_5 /\
  saved_at_5 !! "epoch" = Some (PyInt 5) /\
  start_epoch (opt (setup toy_world (init_state (set_start_epoch parsed 2))).2) = 6 /\
  start_epoch (opt (setup toy_world (init_state (set_start_epoch parsed 40))).2) = 6.
Proof.
  intros parsed.
  assert (resume parsed <> "") as H1 by discriminate.
  assert (isfile toy_world (resume parsed) = true) as H2 by reflexivity.
  assert (torch_load toy_world (resume parsed) = Return saved_at_5) as H3
    by reflexivity.
  assert (saved_at_5 !! "epoch" = Some (PyInt 5)) as H4
    by (vm_compute; reflexivity).
  repeat (split; [assumption|]).
  destruct (proj1 (start_epoch_flag_overridden toy_world) parsed saved_at_5 5
              H1 H2 H3 H4) as [_ H].
  split.
  - destruct (setup toy_world (init_state (set_start_epoch parsed 2)))
      as [[ss|e] s1] eqn:Hs; [|vm_compute in Hs; discriminate Hs].
    exact (proj1 (H 2 ss s1 Hs)).
  - destruct (setup toy_world (init_state (set_start_epoch parsed 40)))
      as [[ss|e] s1] eqn:Hs; [|vm_compute in Hs; discriminate Hs].
    exact (proj1 (H 40 ss s1 Hs)).
Defined.



Lemma epochs_run_in_order_witness :
  exists ss s1,
    setup toy_world (init_state toy_options) = (Return ss, s1) /\
    epochs_entered (trace (main toy_world (init_state toy_options)).2)
    = [1; 2; 3].
Proof.
  destruct (setup toy_world (init_state toy_options)) as [[ss|e] s1] eqn:Hs;
    [|vm_compute in Hs; discriminate Hs].
  exists ss, s1. split; [reflexivity|].
  destruct (epochs_run_in_order toy_world toy_options ss s1 Hs)
    as (_ & Hret & _ & _).
  assert (start_epoch (opt s1) = 1) as Hstart.
  { change s1 with (Return ss, s1).2. rewrite <- Hs. vm_compute. reflexivity. }
  rewrite Hstart in Hret. apply Hret. vm_compute. reflexivity.
Defined.

Lemma checkpoint_once_per_epoch_witness :
  exists om s' evs,
    @train toy_types toy_torch toy_data 0 [8; 2] tt 1 (init_state toy_options)
    = (Return om, s') /\
    trace s' = trace (init_state toy_options) ++ evs /\
    last evs = Some (@save_checkpoint toy_types om.2 2 1) /\
    checkpoints evs = [1].
Proof.
  destruct (@train toy_types toy_torch toy_data 0 [8; 2] tt 1
              (init_state toy_options))
    as [[om|e] s'] eqn:Ht; [|vm_compute in Ht; discriminate Ht].
  destruct (proj1 (@checkpoint_once_per_epoch toy_types toy_torch toy_world)
              toy_data 0 [8; 2] tt 1
              (init_state toy_options) om s' Ht) as (evs & H1 & H2 & H3 & _).
  exists om, s', evs. repeat split; assumption.
Defined.

End Witnesses.

(** ** Further properties of the script *)


Section RunShape.
Context `{TO : Torch}.
Variable w : World.

Lemma marks_of_logs (evs : list event) :
  epochs_entered evs = [] -> checkpoints evs = [] ->
  marks evs = map (fun x : string * Z => Logged x.1 x.2) (scalar_log evs).
Proof.
  unfold epochs_entered, checkpoints, marks, scalar_log.
  induction evs as [|e evs IH]; [done|].
  destruct e; cbn [omap list_omap epoch_of checkpoint_of log_of mark_of];
    try done; intros He Hc; simpl; by rewrite ?IH.
Qed.

Lemma train_marks ld o m crit epoch s :
  let rs := train ld o m crit epoch s in
  let n := Z.of_nat (length (loader_iter ld (passes s))) in
  exists evs, trace rs.2 = trace s ++ evs /\
    marks evs `prefix_of` epoch_marks (loader_len ld) epoch n /\
    (is_Return rs.1 = true -> marks evs = epoch_marks (loader_len ld) epoch n).
Proof.
  unfold train, bind, emit, next_pass, gets, lift, ret. simpl.
  set (s1 := {| opt := opt s;
                trace := trace s ++ [print_epoch epoch (param_groups_0_lr o)];
                passes := S (passes s) |}).
  pose proof (train_batches_spec (loader_len ld) crit epoch
                (loader_iter ld (passes s)) 1 (o, module_train m) s1) as Hb.
  destruct Hb as (Ho & Hp & evs & Ht & He & Hc & Hpre & Hret).
  pose proof (marks_of_logs evs He Hc) as Hm.
  destruct (train_batches _ _ _ _ _ _ s1) as [[om|e] s2]; simpl in *.
  - exists (print_epoch epoch (param_groups_0_lr o) :: evs ++
            [save_checkpoint om.2 (rate (opt s2)) epoch]).
    assert (marks (print_epoch epoch (param_groups_0_lr o) :: evs ++
                   [save_checkpoint om.2 (rate (opt s2)) epoch])
            = epoch_marks (loader_len ld) epoch
                (Z.of_nat (length (loader_iter ld (passes s))))) as Heq.
    { unfold marks in *. simpl. rewrite omap_app, Hm, Hret by done. done. }
    rewrite Heq.
    destruct (save_checkpoint_outcome om.2 (rate (opt s2)) epoch) as [[]|e];
      simpl; rewrite Ht; unfold s1; simpl; rewrite <- !app_assoc; done.
  - exists (print_epoch epoch (param_groups_0_lr o) :: evs).
    rewrite Ht. unfold s1. simpl. rewrite <- app_assoc. split; [done|].
    split; [|done]. unfold marks in *. simpl. rewrite Hm.
    unfold epoch_marks. apply prefix_cons, prefix_app_r.
    destruct Hpre as [k ->]. rewrite map_app. by eexists.
Qed.

Lemma training_loop_shape ld crit epochs : forall om s,
  let rs := training_loop ld crit epochs om s in
  exists evs, trace rs.2 = trace s ++ evs /\
    passes rs.2 = (passes s + length (epochs_entered evs))%nat /\
    (honest_len ld ->
       marks evs `prefix_of` run_marks (loader_len ld) epochs /\
       (rs.1 = Return tt -> marks evs = run_marks (loader_len ld) epochs)).
Proof.
  induction epochs as [|epoch rest IH]; intros om s.
  - simpl. exists []. rewrite app_nil_r. repeat split; try done; simpl; lia.
  - cbn [training_loop]. unfold bind.
    pose proof (train_spec ld om.1 om.2 crit epoch s) as Ht. simpl in Ht.
    destruct Ht as (_ & Hp & evs & Ht & He & _).
    pose proof (train_marks ld om.1 om.2 crit epoch s) as Hm. simpl in Hm.
    destruct Hm as (evs' & Ht' & Hpre & Hret).
    assert (evs' = evs) as -> by (rewrite Ht in Ht'; by apply app_inv_head in Ht').
    change (run_marks (loader_len ld) (epoch :: rest))
      with (epoch_marks (loader_len ld) epoch (loader_len ld) ++
            run_marks (loader_len ld) rest).
    destruct (train ld om.1 om.2 crit epoch s) as [[om'|e] s1];
      cbn [fst snd] in *.
    + destruct (IH om' s1) as (evs2 & Ht2 & Hp2 & Hm2).
      exists (evs ++ evs2). rewrite Ht2, Ht, app_assoc. split; [done|].
      unfold epochs_entered, marks in *. rewrite !omap_app, length_app, He.
      split; [simpl; lia|].
      intros Hh. destruct (Hm2 Hh) as [Hpre2 Hret2].
      rewrite (Hret eq_refl), (Hh (passes s)).
      split; [by apply prefix_app|]. intros Hr. by rewrite (Hret2 Hr).
    + exists evs. split; [done|]. rewrite He. split; [simpl; lia|].
      intros Hh. split; [|done]. rewrite (Hh (passes s)) in Hpre.
      by apply prefix_app_r.
Qed.

Lemma setup_marks parsed :
  marks (trace (setup w (init_state parsed)).2) = [].
Proof.
  destruct (setup_silent w (init_state parsed)) as [_ (evs & -> & F)].
  simpl. unfold marks. induction F as [|e evs He _ IH]; [done|].
  destruct e; try discriminate He; simpl; done.
Qed.

(** Every epoch entered starts exactly one pass over the loader, and nothing
    else does: at the end of a run the number of passes started is the
    number of epochs entered. *)
Theorem one_pass_per_epoch (parsed : Options) :
  let rs := main w (init_state parsed) in
  passes rs.2 = length (epochs_entered (trace rs.2)).
Proof.
  simpl. pose proof (setup_projections w parsed) as Hp. simpl in Hp.
  destruct (setup w (init_state parsed)) as [[ss|e] s1] eqn:Hs; simpl in Hp.
  - rewrite (main_setup_Return w _ _ _ Hs).
    destruct (training_loop_shape (s_loader ss) (s_criterion ss)
                (py_range (start_epoch (opt s1)) (nEpochs (opt s1) + 1))
                (s_optimizer ss, s_model ss) s1) as (evs & Ht & Hpa & _).
    simpl in Ht, Hpa. destruct Hp as (He & _ & _ & H0).
    rewrite Hpa, Ht, H0. unfold epochs_entered in *.
    by rewrite omap_app, He.
  - rewrite (main_setup_Raise w _ _ _ Hs). simpl.
    by destruct Hp as (-> & _ & _ & ->).
Qed.

(** The order of a whole run.  When every pass of the loader has
    [len(loader)] batches, the epoch marks, the scalars and the checkpoint
    saves of a run that returns are, epoch after epoch over
    [range(start_epoch, nEpochs + 1)]: the epoch is entered, its scalars are
    logged at the iterations 10, 20, ..., and its checkpoint is saved.  A run
    that raises shows an initial part of this sequence. *)
Theorem run_is_epoch_by_epoch (parsed : Options) ss s1 :
  setup w (init_state parsed) = (Return ss, s1) ->
  honest_len (s_loader ss) ->
  let rs := main w (init_state parsed) in
  let expected :=
    run_marks (loader_len (s_loader ss))
      (py_range (start_epoch (opt s1)) (nEpochs parsed + 1)) in
  marks (trace rs.2) `prefix_of` expected /\
  (rs.1 = Return tt -> marks (trace rs.2) = expected).
Proof.
  intros Hs Hh. simpl.
  pose proof (setup_nEpochs w parsed) as Hn. rewrite Hs in Hn. simpl in Hn.
  pose proof (setup_marks parsed) as Hm. rewrite Hs in Hm. simpl in Hm.
  rewrite (main_setup_Return w _ _ _ Hs), Hn.
  destruct (training_loop_shape (s_loader ss) (s_criterion ss)
              (py_range (start_epoch (opt s1)) (nEpochs parsed + 1))
              (s_optimizer ss, s_model ss) s1) as (evs & Ht & _ & Hsh).
  simpl in Ht. rewrite Ht. unfold marks in *. rewrite omap_app, Hm. simpl.
  by apply Hsh.
Qed.

End RunShape.

Section ScalarCount.
Context `{TO : Torch}.

Lemma logged_iterations_count (n : nat) : forall first,
  Z.of_nat (length (logged_iterations first (Z.of_nat n))) =
  (first + Z.of_nat n - 1) / 10 - (first - 1) / 10.
Proof.
  induction n as [|n IH]; intros first.
  - unfold logged_iterations. rewrite py_range_nil by lia. simpl.
    replace (first + Z.of_nat 0 - 1) with (first - 1) by lia. lia.
  - replace (Z.of_nat (S n)) with (1 + Z.of_nat n) by lia.
    rewrite logged_iterations_cons, length_app, Nat2Z.inj_add, IH by lia.
    destruct (decide (first mod 10 = 0)) as [E|E]; simpl length;
      replace (first + 1 + Z.of_nat n - 1) with (first + Z.of_nat n) by lia;
      replace (first + (1 + Z.of_nat n) - 1) with (first + Z.of_nat n) by lia;
      revert E; Z.div_mod_to_equations; lia.
Qed.

(** An epoch over [n] batches logs [n // 10] scalars when it returns and at
    most that many when it raises; with fewer than ten batches it logs
    nothing. *)
Theorem scalars_per_epoch ld o m crit epoch s :
  let rs := train ld o m crit epoch s in
  let n := Z.of_nat (length (loader_iter ld (passes s))) in
  exists evs,
    trace rs.2 = trace s ++ evs /\
    Z.of_nat (length (scalar_log evs)) <= n / 10 /\
    (is_Return rs.1 = true -> Z.of_nat (length (scalar_log evs)) = n / 10) /\
    (n < 10 -> scalar_log evs = []).
Proof.
  simpl. pose proof (train_spec ld o m crit epoch s) as Ht. simpl in Ht.
  destruct Ht as (_ & _ & evs & Htr & _ & _ & Hpre & Hret).
  set (n := length (loader_iter ld (passes s))) in *.
  assert (Z.of_nat (length (epoch_log (loader_len ld) epoch 1 (Z.of_nat n)))
          = Z.of_nat n / 10) as Hlen.
  { unfold epoch_log. rewrite length_map, logged_iterations_count.
    replace (1 + Z.of_nat n - 1) with (Z.of_nat n) by lia.
    replace (1 - 1) with 0 by lia. rewrite Z.div_0_l by lia. lia. }
  exists evs. split; [done|].
  assert (Z.of_nat (length (scalar_log evs)) <= Z.of_nat n / 10) as Hle.
  { apply prefix_length in Hpre. lia. }
  repeat split; try done.
  - destruct (train ld o m crit epoch s) as [[om|e] s']; simpl; [|done].
    intros _. destruct (Hret om eq_refl) as (_ & -> & _). done.
  - intros Hn. rewrite Z.div_small in Hle by lia.
    destruct (scalar_log evs); [done|]. simpl in Hle. lia.
Qed.

End ScalarCount.

Section LoadFailures.
Context `{TO : Torch}.
Variable w : World.

Lemma main_raise_in_resume parsed p sa e sb :
  prepare w (init_state parsed) = (Return p, sa) ->
  resume_step w (p_model p) sa = (Raise e, sb) ->
  main w (init_state parsed) = (Raise e, sb).
Proof.
  intros Hp Hr. apply main_setup_Raise. unfold setup, restore.
  rewrite (bind_Return _ _ _ _ _ Hp).
  apply bind_Raise. by apply bind_Raise.
Qed.

Lemma main_raise_in_pretrained parsed p sa m1 sb e sc :
  prepare w (init_state parsed) = (Return p, sa) ->
  resume_step w (p_model p) sa = (Return m1, sb) ->
  pretrained_step w m1 sb = (Raise e, sc) ->
  main w (init_state parsed) = (Raise e, sc).
Proof.
  intros Hp Hr Hpt. apply main_setup_Raise. unfold setup, restore.
  rewrite (bind_Return _ _ _ _ _ Hp).
  apply bind_Raise. by rewrite (bind_Return _ _ _ _ _ Hr).
Qed.

Lemma raised_in_setup_no_epoch parsed :
  is_Return (setup w (init_state parsed)).1 = false ->
  let rs := main w (init_state parsed) in
  epochs_entered (trace rs.2) = [] /\ passes rs.2 = 0%nat.
Proof.
  intros Hr. simpl. pose proof (setup_projections w parsed) as Hp.
  destruct (setup w (init_state parsed)) as [[ss|e] s1] eqn:Hs; [done|].
  rewrite (main_setup_Raise w _ _ _ Hs). simpl in *. tauto.
Qed.

Lemma resume_step_file m s :
  resume (opt s) <> "" -> isfile w (resume (opt s)) = true ->
  let s1 := printed s ("=> loading checkpoint '" +:+ resume (opt s) +:+ "'") in
  resume_step w m s =
  match torch_load w (resume (opt s)) with
  | Raise e => (Raise e, s1)
  | Return ckpt =>
      match ckpt !! "epoch" with
      | None => (Raise (KeyError "epoch"), s1)
      | Some v =>
          match py_add_int v 1 with
          | Raise e => (Raise e, s1)
          | Return e1 =>
              (match ckpt !! "state_dict" with
               | Some sd => load_state_dict m sd
               | None => Raise (KeyError "state_dict")
               end, with_start_epoch s1 e1)
          end
      end
  end.
Proof.
  intros H1 H2. apply str_truthy_true in H1.
  unfold resume_step, bind, gets, emit, lift, dict_getitem. simpl.
  rewrite H1, H2. simpl.
  destruct (torch_load w (resume (opt s))) as [ckpt|e]; [|done].
  destruct (ckpt !! "epoch") as [v|]; [|done]. simpl.
  destruct (py_add_int v 1) as [e1|e]; [|done]. simpl.
  by destruct (ckpt !! "state_dict") as [sd|]; [destruct (load_state_dict m sd)|].
Qed.

Lemma pretrained_step_file m s :
  pretrained (opt s) <> "" -> isfile w (pretrained (opt s)) = true ->
  pretrained_step w m s =
  (match torch_load w (pretrained (opt s)) with
   | Raise e => Raise e
   | Return weights =>
       match weights !! "state_dict" with
       | None => Raise (KeyError "state_dict")
       | Some v =>
           match call_state_dict state_dict v with
           | Raise e => Raise e
           | Return sd => load_state_dict m sd
           end
       end
   end,
   printed s ("=> loading model '" +:+ pretrained (opt s) +:+ "'")).
Proof.
  intros H1 H2. apply str_truthy_true in H1.
  unfold pretrained_step, bind, gets, emit, lift, dict_getitem. simpl.
  rewrite H1, H2. simpl.
  destruct (torch_load w (pretrained (opt s))) as [weights|e]; [|done].
  destruct (weights !! "state_dict") as [v|]; [|done]. simpl.
  destruct (call_state_dict state_dict v) as [sd|e]; [|done]. simpl.
  by destruct (load_state_dict m sd).
Qed.

(** A resume file that cannot be used stops the run before the first epoch.
    When [torch.load] raises, the run raises the same; a checkpoint without
    ["epoch"] gives [KeyError], one whose ["epoch"] is a parameter mapping, a
    model object or [None] gives [TypeError], all three with the options as
    parsed.  A checkpoint with an
    integer epoch and no ["state_dict"] gives [KeyError] after the start
    epoch was already overwritten. *)
Theorem unusable_resume_checkpoint_aborts (parsed : Options) p sa :
  prepare w (init_state parsed) = (Return p, sa) ->
  resume parsed <> "" -> isfile w (resume parsed) = true ->
  let rs := main w (init_state parsed) in
  (forall e, torch_load w (resume parsed) = Raise e ->
     rs.1 = Raise e /\ opt rs.2 = parsed /\
     epochs_entered (trace rs.2) = []) /\
  (forall ckpt, torch_load w (resume parsed) = Return ckpt ->
     ckpt !! "epoch" = None ->
     rs.1 = Raise (KeyError "epoch") /\ opt rs.2 = parsed /\
     epochs_entered (trace rs.2) = []) /\
  (forall ckpt v, torch_load w (resume parsed) = Return ckpt ->
     ckpt !! "epoch" = Some v -> (forall n, v <> PyInt n) ->
     rs.1 = Raise (TypeError "unsupported operand type(s) for +") /\
     opt rs.2 = parsed /\ epochs_entered (trace rs.2) = []) /\
  (forall ckpt E, torch_load w (resume parsed) = Return ckpt ->
     ckpt !! "epoch" = Some (PyInt E) -> ckpt !! "state_dict" = None ->
     rs.1 = Raise (KeyError "state_dict") /\
     opt rs.2 = set_start_epoch parsed (E + 1) /\
     epochs_entered (trace rs.2) = []).
Proof.
  intros Hp H1 H2. simpl.
  pose proof (prepare_same_opt w (init_state parsed)) as Ha.
  rewrite Hp in Ha. unfold same_opt in Ha. simpl in Ha.
  assert (forall e sb, resume_step w (p_model p) sa = (Raise e, sb) ->
            (main w (init_state parsed)).1 = Raise e /\
            opt (main w (init_state parsed)).2 = opt sb /\
            epochs_entered (trace (main w (init_state parsed)).2) = []) as Hgo.
  { intros e sb Hr.
    pose proof (main_raise_in_resume parsed p sa e sb Hp Hr) as Hm.
    assert (is_Return (setup w (init_state parsed)).1 = false) as Hs.
    { unfold setup, restore. rewrite (bind_Return _ _ _ _ _ Hp).
      by rewrite (bind_Raise _ _ _ e sb) by by apply bind_Raise. }
    destruct (raised_in_setup_no_epoch parsed Hs) as [He _].
    rewrite Hm in He |- *. done. }
  pose proof (resume_step_file (p_model p) sa) as Hf. simpl in Hf.
  rewrite Ha in Hf. specialize (Hf H1 H2).
  split; [|split; [|split]].
  - intros e Hl. rewrite Hl in Hf.
    destruct (Hgo _ _ Hf) as (? & Ho & ?). simpl in Ho. by rewrite Ha in Ho.
  - intros ckpt Hl He. rewrite Hl, He in Hf.
    destruct (Hgo _ _ Hf) as (? & Ho & ?). simpl in Ho. by rewrite Ha in Ho.
  - intros ckpt v Hl He Hv. rewrite Hl, He in Hf.
    assert (py_add_int v 1 = Raise (TypeError "unsupported operand type(s) for +"))
      as Hadd by (destruct v; try done; by destruct (Hv n)).
    rewrite Hadd in Hf.
    destruct (Hgo _ _ Hf) as (? & Ho & ?). simpl in Ho. by rewrite Ha in Ho.
  - intros ckpt E Hl He Hsd. rewrite Hl, He in Hf. simpl in Hf.
    rewrite Hsd in Hf.
    destruct (Hgo _ _ Hf) as (? & Ho & ?). simpl in Ho. by rewrite Ha in Ho.
Qed.

(** A pretrained file that cannot be used stops the run before the first
    epoch as well: the exception of [torch.load], [KeyError] when there is
    no ["state_dict"] entry, [AttributeError] when the entry is not a model
    object. *)
Theorem unusable_pretrained_file_aborts (parsed : Options) p sa m1 sb :
  prepare w (init_state parsed) = (Return p, sa) ->
  resume_step w (p_model p) sa = (Return m1, sb) ->
  pretrained parsed <> "" -> isfile w (pretrained parsed) = true ->
  let rs := main w (init_state parsed) in
  (forall e, torch_load w (pretrained parsed) = Raise e ->
     rs.1 = Raise e /\ epochs_entered (trace rs.2) = []) /\
  (forall weights, torch_load w (pretrained parsed) = Return weights ->
     weights !! "state_dict" = None ->
     rs.1 = Raise (KeyError "state_dict") /\
     epochs_entered (trace rs.2) = []) /\
  (forall weights v, torch_load w (pretrained parsed) = Return weights ->
     weights !! "state_dict" = Some v -> (forall inner, v <> PyModule inner) ->
     rs.1 = Raise (AttributeError "state_dict") /\
     epochs_entered (trace rs.2) = []).
Proof.
  intros Hp Hr H1 H2. simpl.
  pose proof (prepare_same_opt w (init_state parsed)) as Ha.
  rewrite Hp in Ha. unfold same_opt in Ha. simpl in Ha.
  destruct (resume_step_same_but_start w (p_model p) sa) as [a Hb].
  rewrite Hr in Hb. simpl in Hb. rewrite Ha in Hb.
  assert (pretrained (opt sb) = pretrained parsed) as Hpath by by rewrite Hb.
  assert (forall e sc, pretrained_step w m1 sb = (Raise e, sc) ->
            (main w (init_state parsed)).1 = Raise e /\
            epochs_entered (trace (main w (init_state parsed)).2) = []) as Hgo.
  { intros e sc Hpt.
    pose proof (main_raise_in_pretrained parsed p sa m1 sb e sc Hp Hr Hpt) as Hm.
    assert (is_Return (setup w (init_state parsed)).1 = false) as Hs.
    { unfold setup, restore. rewrite (bind_Return _ _ _ _ _ Hp).
      rewrite (bind_Raise _ _ _ e sc); [done|].
      by rewrite (bind_Return _ _ _ _ _ Hr). }
    destruct (raised_in_setup_no_epoch parsed Hs) as [He _].
    rewrite Hm in He |- *. done. }
  pose proof (pretrained_step_file m1 sb) as Hf.
  rewrite Hpath in Hf. specialize (Hf H1 H2).
  split; [|split].
  - intros e Hl. rewrite Hl in Hf. exact (Hgo _ _ Hf).
  - intros weights Hl Hk. rewrite Hl, Hk in Hf. exact (Hgo _ _ Hf).
  - intros weights v Hl Hk Hv. rewrite Hl, Hk in Hf.
    assert (call_state_dict state_dict v = Raise (AttributeError "state_dict"))
      as Hc by (destruct v; try done; by destruct (Hv m)).
    rewrite Hc in Hf. exact (Hgo _ _ Hf).
Qed.

(** With both flags naming files that load, the pretrained weights are
    loaded over the resumed ones, and the start epoch is still the resume
    checkpoint's plus one. *)
Theorem pretrained_loads_over_resumed m s ckpt E v m1 weights inner :
  resume (opt s) <> "" -> isfile w (resume (opt s)) = true ->
  torch_load w (resume (opt s)) = Return ckpt ->
  ckpt !! "epoch" = Some (PyInt E) -> ckpt !! "state_dict" = Some v ->
  load_state_dict m v = Return m1 ->
  pretrained (opt s) <> "" -> isfile w (pretrained (opt s)) = true ->
  torch_load w (pretrained (opt s)) = Return weights ->
  weights !! "state_dict" = Some (PyModule inner) ->
  let rs := restore w m s in
  rs.1 = load_state_dict m1 (PyStateDict (state_dict inner)) /\
  opt rs.2 = set_start_epoch (opt s) (E + 1) /\
  trace rs.2 = trace s ++
    [print ("=> loading checkpoint '" +:+ resume (opt s) +:+ "'");
     print ("=> loading model '" +:+ pretrained (opt s) +:+ "'")].
Proof.
  intros H1 H2 H3 H4 H5 H6 H7 H8 H9 H10. simpl. unfold restore.
  pose proof (resume_step_loads w m s ckpt E H1 H2 H3 H4) as Hr.
  rewrite H5, H6 in Hr. rewrite (bind_Return _ _ _ _ _ Hr).
  rewrite (pretrained_step_loads w m1 _ weights) by done.
  simpl. rewrite H10. simpl. by rewrite <- app_assoc.
Qed.

End LoadFailures.

Section Knobs.
Context `{TO : Torch}.
Variable w : World.
Variable st : Z.
Variables mo wd : Float.

Lemma blind_ret {A} (a : A) : blind_to_knobs st mo wd (ret a).
Proof. done. Qed.

Lemma blind_raise {A} e : blind_to_knobs st mo wd (@raise _ A e).
Proof. done. Qed.

Lemma blind_lift {A} (r : result A) : blind_to_knobs st mo wd (lift r).
Proof. done. Qed.

Lemma blind_gets {A} (f : Options -> A) :
  (forall o, f (with_knobs o st mo wd) = f o) ->
  blind_to_knobs st mo wd (gets f).
Proof. intros Hf s. unfold gets. simpl. by rewrite Hf. Qed.

Lemma blind_emit e :
  reprint st mo wd e = e -> blind_to_knobs st mo wd (emit e).
Proof.
  intros He s. unfold emit, reknob. simpl. by rewrite map_app, <- He at 1.
Qed.

Lemma blind_assign e : blind_to_knobs st mo wd (assign_start_epoch e).
Proof. done. Qed.

Lemma blind_next_pass ld : blind_to_knobs st mo wd (next_pass ld).
Proof. done. Qed.

Lemma blind_bind {A B} (m : M A) (k : A -> M B) :
  blind_to_knobs st mo wd m -> (forall a, blind_to_knobs st mo wd (k a)) ->
  blind_to_knobs st mo wd (bind m k).
Proof.
  intros Hm Hk s. unfold bind. rewrite (Hm s).
  destruct (m s) as [[a|e] s1]; simpl; [apply Hk|done].
Qed.

Lemma blind_if {A} (c : bool) (m1 m2 : M A) :
  blind_to_knobs st mo wd m1 -> blind_to_knobs st mo wd m2 ->
  blind_to_knobs st mo wd (if c then m1 else m2).
Proof. by destruct c. Qed.

Lemma blind_when (c : bool) (m : M unit) :
  blind_to_knobs st mo wd m -> blind_to_knobs st mo wd (when c m).
Proof. by destruct c. Qed.

(** Lines 37-38: the options are printed as they are. *)
Lemma blind_print_opt {A} (rest : M A) :
  blind_to_knobs st mo wd rest ->
  blind_to_knobs st mo wd (o <- gets id ;; emit (print_opt o) ;; rest).
Proof.
  intros Hr s. unfold bind at 1 2, gets, emit. simpl.
  specialize (Hr {| opt := opt s; trace := trace s ++ [print_opt (opt s)];
                    passes := passes s |}).
  unfold reknob in Hr at 1. simpl in Hr. rewrite map_app in Hr. exact Hr.
Qed.

Ltac blind_tac :=
  repeat first
    [ apply blind_ret | apply blind_raise | apply blind_lift
    | apply blind_gets; reflexivity
    | apply blind_emit; reflexivity
    | apply blind_assign | apply blind_next_pass
    | apply blind_when | apply blind_if
    | apply blind_bind; [|intros ?] ].

Lemma blind_prepare : blind_to_knobs st mo wd (prepare w).
Proof. unfold prepare. apply blind_print_opt. blind_tac. Qed.

Lemma blind_restore m : blind_to_knobs st mo wd (restore w m).
Proof. unfold restore, resume_step, pretrained_step. blind_tac. Qed.

Lemma blind_finish p m : blind_to_knobs st mo wd (finish p m).
Proof. unfold finish, set_gpu. blind_tac. Qed.

Lemma blind_setup : blind_to_knobs st mo wd (setup w).
Proof.
  unfold setup.
  apply blind_bind; [apply blind_prepare|intros p].
  apply blind_bind; [apply blind_restore|intros m].
  apply blind_bind; [apply blind_finish|intros ss]. blind_tac.
Qed.

Lemma blind_train_batches len crit epoch batches : forall it om,
  blind_to_knobs st mo wd (train_batches len crit epoch it batches om).
Proof.
  induction batches as [|batch rest IH]; intros it om; simpl.
  - apply blind_ret.
  - apply blind_bind; [|intros om'; apply IH].
    unfold train_batch. blind_tac.
Qed.

Lemma blind_train ld o m crit epoch :
  blind_to_knobs st mo wd (train ld o m crit epoch).
Proof.
  unfold train.
  apply blind_bind; [apply blind_emit; reflexivity|intros _].
  apply blind_bind; [apply blind_next_pass|intros batches].
  apply blind_bind; [apply blind_train_batches|intros om]. blind_tac.
Qed.

Lemma blind_training_loop ld crit epochs : forall om,
  blind_to_knobs st mo wd (training_loop ld crit epochs om).
Proof.
  induction epochs as [|epoch rest IH]; intros om; simpl.
  - apply blind_ret.
  - apply blind_bind; [apply blind_train|intros om'; apply IH].
Qed.

Lemma marks_reprint (tr : list event) :
  marks (map (reprint st mo wd) tr) = marks tr.
Proof.
  unfold marks. induction tr as [|e tr IH]; [done|].
  destruct e; cbn [map reprint omap list_omap mark_of]; by rewrite IH.
Qed.

(** [--step], [--momentum] and [--weight-decay] are parsed and never read.
    With other values for them the run has the same outcome, starts the
    same passes and emits the same events, the saved models and the logged
    losses included; only the line that prints the options shows the other
    values. *)
Theorem unread_flags_change_nothing (parsed : Options) :
  let rs := main w (init_state parsed) in
  let rs' := main w (init_state (with_knobs parsed st mo wd)) in
  rs'.1 = rs.1 /\
  passes rs'.2 = passes rs.2 /\
  trace rs'.2 = map (reprint st mo wd) (trace rs.2) /\
  opt rs'.2 = with_knobs (opt rs.2) st mo wd /\
  marks (trace rs'.2) = marks (trace rs.2).
Proof.
  simpl.
  assert (blind_to_knobs st mo wd (main w)) as Hm.
  { unfold main. apply blind_bind; [apply blind_setup|intros ss].
    apply blind_bind; [apply blind_gets; reflexivity|intros a].
    apply blind_bind; [apply blind_gets; reflexivity|intros n].
    apply blind_training_loop. }
  specialize (Hm (init_state parsed)).
  change (reknob st mo wd (init_state parsed))
    with (init_state (with_knobs parsed st mo wd)) in Hm.
  rewrite Hm. simpl. repeat split; try done. apply marks_reprint.
Qed.

End Knobs.

Section Propagation.
Context `{TO : Torch}.
Variable w : World.

(** The step index tells the epoch.  When every pass of the loader has
    [len(loader)] batches, two calls of [train] over it that log a scalar at
    the same step are calls for the same epoch, and the step is
    [len * epoch + iteration] for an iteration divisible by 10.  A run
    resumed at a later epoch thus never writes at a step an earlier epoch
    wrote at. *)
Theorem step_identifies_epoch ld o1 m1 c1 e1 s1 o2 m2 c2 e2 s2 evs1 evs2
    tag1 tag2 st :
  honest_len ld ->
  trace (train ld o1 m1 c1 e1 s1).2 = trace s1 ++ evs1 ->
  trace (train ld o2 m2 c2 e2 s2).2 = trace s2 ++ evs2 ->
  (tag1, st) ∈ scalar_log evs1 ->
  (tag2, st) ∈ scalar_log evs2 ->
  e1 = e2 /\ tag1 = "loss" /\ tag2 = "loss" /\
  exists it, 1 <= it <= loader_len ld /\ it mod 10 = 0 /\
             st = loader_len ld * e1 + it.
Proof.
  intros Hh Ht1 Ht2 H1 H2.
  assert (forall o m c e s evs tag,
            trace (train ld o m c e s).2 = trace s ++ evs ->
            (tag, st) ∈ scalar_log evs ->
            (tag, st) ∈ epoch_log (loader_len ld) e 1 (loader_len ld)) as Hin.
  { intros o m c e s evs tag Ht Hel.
    pose proof (train_spec ld o m c e s) as Hs. simpl in Hs.
    destruct Hs as (_ & _ & evs' & Ht' & _ & _ & [k Hk] & _).
    rewrite Ht in Ht'. apply app_inv_head in Ht' as <-.
    rewrite (Hh (passes s)) in Hk. rewrite Hk. apply elem_of_app. by left. }
  apply (Hin _ _ _ _ _ _ tag1) in Ht1; [|exact H1].
  apply (Hin _ _ _ _ _ _ tag2) in Ht2; [|exact H2].
  apply epoch_log_elem in Ht1 as (it1 & Hr1 & Hm1 & [= -> ->]).
  apply epoch_log_elem in Ht2 as (it2 & Hr2 & Hm2 & [= -> Heq]).
  assert (e1 = e2) as -> by nia.
  do 3 (split; [done|]). exists it1. repeat split; try done; lia.
Qed.

#[export] Instance still_parsed_po parsed : PreOrder (still_parsed parsed).
Proof.
  split; unfold still_parsed.
  - by intros s H.
  - intros s1 s2 s3 H1 H2 H. auto.
Qed.

Lemma same_opt_still_parsed {A} parsed (m : M A) :
  steps same_opt m -> steps (still_parsed parsed) m.
Proof. intros H s Hs. by rewrite (H s). Qed.

Lemma training_loop_same_opt ld crit epochs om :
  steps same_opt (training_loop ld crit epochs om).
Proof.
  intros s. by destruct (training_loop_spec ld crit epochs om s) as [H _].
Qed.

(** The global [opt] is written in one place only.  At the end of any run
    the options are the parsed ones except possibly for [start_epoch]; and
    when no resume checkpoint is loaded (no path, or not a file) they are the
    parsed ones altogether. *)
Theorem options_change_only_by_resume (parsed : Options) :
  let rs := main w (init_state parsed) in
  (exists e, opt rs.2 = set_start_epoch parsed e) /\
  (resume parsed = "" \/ isfile w (resume parsed) = false ->
   opt rs.2 = parsed).
Proof.
  simpl. split.
  - assert (steps same_but_start (main w)) as Hm.
    { unfold main.
      steps_rule steps_bind; [apply setup_same_but_start|intros ss].
      steps_rule steps_bind; [steps_rule steps_gets|intros a].
      steps_rule steps_bind; [steps_rule steps_gets|intros n].
      apply same_opt_but_start, training_loop_same_opt. }
    exact (Hm (init_state parsed)).
  - intros Hno.
    assert (forall m, steps (still_parsed parsed) (resume_step w m)) as Hr.
    { intros m s Hs.
      destruct (decide (resume (opt s) = "")) as [He|He].
      - by rewrite resume_step_off.
      - rewrite resume_step_missing; [done..|].
        rewrite Hs in He |- *. by destruct Hno. }
    assert (steps (still_parsed parsed) (main w)) as Hm.
    { unfold main, setup, restore.
      steps_rule steps_bind; [|intros ss].
      - steps_rule steps_bind;
          [apply same_opt_still_parsed, prepare_same_opt|intros p].
        steps_rule steps_bind; [|intros m].
        + steps_rule steps_bind; [apply Hr|intros m].
          apply same_opt_still_parsed, pretrained_step_same_opt.
        + steps_rule steps_bind;
            [apply same_opt_still_parsed, finish_same_opt|intros ss].
          apply same_opt_still_parsed. steps_tac.
      - steps_rule steps_bind; [steps_rule steps_gets|intros a].
        steps_rule steps_bind; [steps_rule steps_gets|intros n].
        apply same_opt_still_parsed, training_loop_same_opt. }
    by apply (Hm (init_state parsed)).
Qed.

End Propagation.

Section MoreWitnesses.
Import Toy.
#[local] Existing Instance toy_types.
#[local] Existing Instance toy_torch.

Lemma run_is_epoch_by_epoch_witness :
  exists ss s1,
    setup toy_world (init_state toy_options) = (Return ss, s1) /\
    honest_len (s_loader ss) /\
    marks (trace (main toy_world (init_state toy_options)).2) =
    [Entered 1; Logged "loss" 22; Saved 1;
     Entered 2; Logged "loss" 34; Saved 2;
     Entered 3; Logged "loss" 46; Saved 3].
Proof.
  destruct (setup toy_world (init_state toy_options)) as [[ss|e] s1] eqn:Hs;
    [|vm_compute in Hs; discriminate Hs].
  assert (honest_len (s_loader ss)) as Hh by (intros k; reflexivity).
  exists ss, s1. split; [reflexivity|]. split; [exact Hh|].
  destruct (run_is_epoch_by_epoch toy_world toy_options ss s1 Hs Hh)
    as [_ Hret].
  rewrite Hret by (vm_compute; reflexivity).
  pose proof Hs as Hs'. vm_compute in Hs'. injection Hs' as <- <-.
  vm_compute. reflexivity.
Defined.

Lemma scalars_per_epoch_witness :
  exists evs,
    trace (@train toy_types toy_torch toy_data 0 [8; 2] tt 1
             (init_state toy_options)).2 = evs /\
    Z.of_nat (length (scalar_log evs)) = 12 / 10.
Proof.
  destruct (@scalars_per_epoch toy_types toy_torch toy_data 0 [8; 2] tt 1
              (init_state toy_options)) as (evs & Ht & _ & Hret & _).
  exists evs. split; [exact Ht|]. apply Hret. vm_compute. reflexivity.
Defined.

Lemma unusable_resume_checkpoint_aborts_witness :
  let parsed := with_resume toy_options "model.pth" in
  resume parsed <> "" /\
  isfile toy_world (resume parsed) = true /\
  torch_load toy_world (resume parsed) = Return released_model /\
  released_model !! "epoch" = None /\
  (main toy_world (init_state parsed)).1 = Raise (KeyError "epoch").
Proof.
  intros parsed.
  assert (resume parsed <> "") as H1 by discriminate.
  assert (isfile toy_world (resume parsed) = true) as H2 by reflexivity.
  assert (torch_load toy_world (resume parsed) = Return released_model) as H3
    by reflexivity.
  assert (released_model !! "epoch" = None) as H4 by (vm_compute; reflexivity).
  repeat (split; [assumption|]).
  destruct (prepare toy_world (init_state parsed)) as [[p|e] sa] eqn:Hp;
    [|vm_compute in Hp; discriminate Hp].
  destruct (unusable_resume_checkpoint_aborts toy_world parsed p sa Hp H1 H2)
    as (_ & Hk & _).
  exact (proj1 (Hk released_model H3 H4)).
Defined.

Lemma unusable_pretrained_file_aborts_witness :
  let parsed := with_pretrained toy_options "epoch5.pth" in
  pretrained parsed <> "" /\
  isfile toy_world (pretrained parsed) = true /\
  torch_load toy_world (pretrained parsed) = Return saved_at_5 /\
  saved_at_5 !! "state_dict" = Some (PyStateDict [7; 9]) /\
  (main toy_world (init_state parsed)).1 = Raise (AttributeError "state_dict").
Proof.
  intros parsed.
  assert (pretrained parsed <> "") as H1 by discriminate.
  assert (isfile toy_world (pretrained parsed) = true) as H2 by reflexivity.
  assert (torch_load toy_world (pretrained parsed) = Return saved_at_5) as H3
    by reflexivity.
  assert (saved_at_5 !! "state_dict" = Some (@PyStateDict toy_types [7; 9]))
    as H4 by (vm_compute; reflexivity).
  repeat (split; [assumption|]).
  destruct (prepare toy_world (init_state parsed)) as [[p|e] sa] eqn:Hp;
    [|vm_compute in Hp; discriminate Hp].
  destruct (resume_step toy_world (p_model p) sa) as [[m1|e] sb] eqn:Hr.
  2:{ rewrite resume_step_off in Hr; [discriminate Hr|].
      pose proof (prepare_same_opt toy_world (init_state parsed)) as Ho.
      rewrite Hp in Ho. unfold same_opt in Ho. simpl in Ho. by rewrite Ho. }
  destruct (unusable_pretrained_file_aborts toy_world parsed p sa m1 sb
              Hp Hr H1 H2) as (_ & _ & Hk).
  refine (proj1 (Hk saved_at_5 (@PyStateDict toy_types [7; 9]) H3 H4 _)).
  discriminate.
Defined.

Lemma pretrained_loads_over_resumed_witness :
  let s :=
    init_state (with_pretrained (with_resume toy_options "epoch5.pth")
                  "model.pth") in
  let rs := @restore toy_types toy_torch toy_world [8; 2] s in
  rs.1 = Return [3; 4] /\ start_epoch (opt rs.2) = 6.
Proof.
  intros s rs.
  assert (saved_at_5 !! "epoch" = Some (@PyInt toy_types 5)) as H4
    by (vm_compute; reflexivity).
  assert (saved_at_5 !! "state_dict" = Some (@PyStateDict toy_types [7; 9]))
    as H5 by (vm_compute; reflexivity).
  assert (released_model !! "state_dict" = Some (@PyModule toy_types [3; 4]))
    as H10 by (vm_compute; reflexivity).
  destruct (@pretrained_loads_over_resumed toy_types toy_torch toy_world
              [8; 2] s saved_at_5 5 (@PyStateDict toy_types [7; 9]) [7; 9]
              released_model [3; 4])
    as (Hr & Ho & _);
    try reflexivity; try discriminate; try assumption.
  split; [exact Hr|]. fold rs in Ho. by rewrite Ho.
Defined.

Lemma step_identifies_epoch_witness :
  let s := init_state toy_options in
  let evs := trace (@train toy_types toy_torch toy_data 0 [8; 2] tt 2 s).2 in
  @honest_len toy_types toy_torch toy_data /\
  ("loss", 34) ∈ scalar_log evs /\
  exists it, 1 <= it <= 12 /\ it mod 10 = 0 /\ 34 = 12 * 2 + it.
Proof.
  intros s evs.
  assert (@honest_len toy_types toy_torch toy_data) as Hh
    by (intros k; reflexivity).
  assert (("loss", 34) ∈ scalar_log evs) as H
    by (vm_compute; apply list_elem_of_here).
  split; [exact Hh|]. split; [exact H|].
  exact (proj2 (proj2 (proj2
    (@step_identifies_epoch toy_types toy_torch toy_data 0 [8; 2] tt 2 s
       0 [8; 2] tt 2 s evs evs "loss" "loss" 34 Hh eq_refl eq_refl H H)))).
Defined.

Lemma options_change_only_by_resume_witness :
  (resume toy_options = "" \/ isfile toy_world (resume toy_options) = false) /\
  opt (main toy_world (init_state toy_options)).2 = toy_options.
Proof.
  assert (resume toy_options = "" \/
          isfile toy_world (resume toy_options) = false) as H
    by (left; reflexivity).
  split; [exact H|].
  exact (proj2 (options_change_only_by_resume toy_world toy_options) H).
Defined.

End MoreWitnesses.

(** ** The square root of the rate *)

Section SquareRoot.

Lemma SFsqrt_sign prec emax f m e :
  SFsqrt prec emax f <> S754_finite true m e.
Proof.
  destruct f as [s|s| |s mx ex]; simpl; try destruct s; try discriminate.
  destruct (SFsqrt_core_binary prec emax (Z.pos mx) ex) as [[mz ez] lz].
  unfold binary_round_aux.
  destruct (shr_fexp prec emax mz ez lz) as [mrs' e'].
  destruct (shr_fexp prec emax _ e' loc_Exact) as [mrs'' e''].
  destruct (shr_m mrs''); try discriminate.
  destruct (e'' <=? emax - prec); discriminate.
Qed.

Lemma int_math_sqrt_nonneg x k : int_math_sqrt x = Return k -> 0 <= k.
Proof.
  unfold int_math_sqrt. intros H.
  assert (forall g, (forall m e, g <> S754_finite true m e) ->
            int_of_float g = Return k -> 0 <= k) as Hg.
  { intros g Hs Hi. destruct g as [s|s| |s m e]; simpl in Hi; try discriminate.
    - injection Hi as <-. lia.
    - destruct s; [by destruct (Hs m e)|]. injection Hi as <-.
      destruct (Z.leb_spec 0 e) as [He|He].
      + apply Z.mul_nonneg_nonneg; [lia|]. apply Z.pow_nonneg. lia.
      + apply Z.div_pos; [lia|]. apply Z.pow_pos_nonneg; lia. }
  destruct (float_of_int x) as [s|s| |s m e] eqn:Hf; try discriminate.
  all: match type of H with
       | match ?g with _ => _ end = _ =>
           pose proof (SFsqrt_sign 53 1024 _ : forall m e, g <> _) as Hs;
           destruct g eqn:Hsq; try discriminate; eapply Hg; eauto;
           intros; rewrite <- Hsq; apply Hs
       end.
Qed.

End SquareRoot.

(** ** The epoch as it runs and as it is described *)

Section EpochDescribed.
Context `{TO : Torch}.

Lemma py_getitem_nonneg {A} (l : list A) (k : Z) :
  0 <= k -> ok (py_getitem l k) = l !! Z.to_nat k.
Proof.
  intros Hk. unfold py_getitem.
  destruct (Z.ltb_spec k 0) as [?|_]; [lia|].
  destruct (Z.ltb_spec k 0) as [?|_]; [lia|].
  by destruct (l !! Z.to_nat k).
Qed.

Lemma described_step_input_label r use_cuda crit (batch : Batch) om :
  described_step r use_cuda crit batch om =
  (il ← ok (input_label r batch);
   x ← ok (to_device use_cuda il.1);
   y ← ok (to_device use_cuda il.2);
   sr ← ok (forward om.2 x);
   loss ← ok (criterion_call crit y sr);
   m1 ← ok (backward loss (zero_grad om.1 om.2));
   om' ← ok (optimizer_step om.1 m1);
   Some (om', loss)).
Proof.
  unfold described_step, input_label, Batch in *.
  pose proof (py_getitem_nonneg batch 0 (Z.le_refl 0)) as H0.
  change (Z.to_nat 0) with 0%nat in H0. rewrite <- H0.
  destruct (py_getitem batch 0) as [b0|e0]; simpl; [|done].
  destruct (int_math_sqrt r) as [k|ek] eqn:Hk; simpl; [|done].
  rewrite <- (py_getitem_nonneg batch k) by by eapply int_math_sqrt_nonneg.
  by destruct (py_getitem batch k) as [bk|e1].
Qed.

(** One batch: the step is the described one, and lines 121-124 log its
    loss on a tenth iteration. *)
Lemma train_batch_described len crit epoch it batch om s :
  let rs := train_batch len crit epoch it batch om s in
  match described_step (rate (opt s)) (cuda (opt s)) crit batch om with
  | None => is_Return rs.1 = false /\ rs.2 = s
  | Some (om', loss) =>
      if decide (it mod 10 = 0) then
        match loss_data_0 loss with
        | Return v =>
            rs = (Return om',
                  {| opt := opt s;
                     trace := trace s ++
                       [print_loss epoch it len v;
                        add_scalar "loss" v (len * epoch + it)];
                     passes := passes s |})
        | Raise e => rs = (Raise e, s)
        end
      else rs = (Return om', s)
  end.
Proof.
  simpl. rewrite described_step_input_label.
  unfold train_batch, bind, lift, gets, emit, ret. simpl.
  destruct (input_label (rate (opt s)) batch) as [il|?]; simpl; [|done].
  destruct (to_device (cuda (opt s)) il.1) as [x|?]; simpl; [|done].
  destruct (to_device (cuda (opt s)) il.2) as [y|?]; simpl; [|done].
  destruct (forward om.2 x) as [sr|?]; simpl; [|done].
  destruct (criterion_call crit y sr) as [loss|?]; simpl; [|done].
  destruct (backward loss (zero_grad om.1 om.2)) as [m1|?]; simpl; [|done].
  destruct (optimizer_step om.1 m1) as [om'|?]; simpl; [|done].
  destruct (decide (it mod 10 = 0)) as [E|E];
    [rewrite (proj2 (Z.eqb_eq _ _) E)|rewrite (proj2 (Z.eqb_neq _ _) E)];
    [|by destruct s].
  destruct (loss_data_0 loss) as [v|?]; simpl; [|done].
  by rewrite <- app_assoc.
Qed.

(** The batch loop against the described epoch. *)
Lemma train_batches_described len crit epoch batches : forall it om s,
  let rs := train_batches len crit epoch it batches om s in
  match described_epoch len epoch (rate (opt s)) (cuda (opt s)) crit it
          batches om with
  | Some (om', sc) =>
      exists evs,
        rs = (Return om',
              {| opt := opt s; trace := trace s ++ evs; passes := passes s |}) /\
        scalars evs = sc /\ checkpoints evs = []
  | None => is_Return rs.1 = false
  end.
Proof.
  induction batches as [|batch rest IH]; intros it om s.
  - simpl. exists []. rewrite app_nil_r. by destruct s.
  - cbn [train_batches described_epoch]. unfold bind.
    pose proof (train_batch_described len crit epoch it batch om s) as Hb.
    simpl in Hb.
    destruct (described_step (rate (opt s)) (cuda (opt s)) crit batch om)
      as [[om1 loss]|]; simpl.
    2:{ destruct Hb as [Hr _].
        by destruct (train_batch len crit epoch it batch om s) as [[?|?] ?]. }
    destruct (decide (it mod 10 = 0)) as [E|E].
    + destruct (loss_data_0 loss) as [v|e]; simpl; rewrite Hb; [|done].
      specialize (IH (it + 1) om1
        {| opt := opt s;
           trace := trace s ++ [print_loss epoch it len v;
                                add_scalar "loss" v (len * epoch + it)];
           passes := passes s |}). simpl in IH.
      destruct (described_epoch len epoch (rate (opt s)) (cuda (opt s)) crit
                  (it + 1) rest om1) as [[om' sc]|]; simpl; [|done].
      destruct IH as (evs & -> & <- & Hc).
      exists ([print_loss epoch it len v;
               add_scalar "loss" v (len * epoch + it)] ++ evs).
      rewrite app_assoc. split; [done|].
      unfold scalars, checkpoints in *. rewrite !omap_app. by rewrite Hc.
    + simpl. rewrite Hb. specialize (IH (it + 1) om1 s). simpl in IH.
      destruct (described_epoch len epoch (rate (opt s)) (cuda (opt s)) crit
                  (it + 1) rest om1) as [[om' sc]|]; simpl; done.
Qed.

(** An epoch against the described one: [train] returns when the described
    epoch succeeds and [save_checkpoint] returns, with the described model
    and scalars, and only then. *)
Lemma train_described ld o m crit epoch s :
  let rs := train ld o m crit epoch s in
  match described_epoch (loader_len ld) epoch (rate (opt s)) (cuda (opt s))
          crit 1 (loader_iter ld (passes s)) (o, module_train m) with
  | Some (om, sc) =>
      exists evs,
        trace rs.2 = trace s ++ evs /\ scalars evs = sc /\
        rs.1 = match save_checkpoint_outcome om.2 (rate (opt s)) epoch with
               | Return _ => Return om
               | Raise e => Raise e
               end
  | None => is_Return rs.1 = false
  end.
Proof.
  unfold train, bind, emit, next_pass, gets, lift, ret. simpl.
  set (s1 := {| opt := opt s;
                trace := trace s ++ [print_epoch epoch (param_groups_0_lr o)];
                passes := S (passes s) |}).
  pose proof (train_batches_described (loader_len ld) crit epoch
                (loader_iter ld (passes s)) 1 (o, module_train m) s1) as Hb.
  simpl in Hb.
  destruct (described_epoch (loader_len ld) epoch (rate (opt s))
              (cuda (opt s)) crit 1 (loader_iter ld (passes s))
              (o, module_train m)) as [[om sc]|].
  - destruct Hb as (evs & -> & <- & Hc). simpl.
    exists (print_epoch epoch (param_groups_0_lr o) :: evs ++
            [save_checkpoint om.2 (rate (opt s)) epoch]).
    destruct (save_checkpoint_outcome om.2 (rate (opt s)) epoch) as [[]|e];
      simpl; rewrite <- !app_assoc; (split; [done|]); (split; [|done]);
      unfold scalars; simpl; by rewrite omap_app, app_nil_r.
  - by destruct (train_batches _ _ _ _ _ _ s1) as [[?|?] ?].
Qed.

(** A described epoch that succeeds has, in every batch, a tensor at index 0
    and one at the index of the square root of the rate. *)
Lemma described_epoch_batches len epoch r use_cuda crit batches :
  forall it om res,
  described_epoch len epoch r use_cuda crit it batches om = Some res ->
  Forall (fun batch : Batch =>
            exists b0 k bk, batch !! 0%nat = Some b0 /\
              int_math_sqrt r = Return k /\ 0 <= k /\
              batch !! Z.to_nat k = Some bk) batches.
Proof.
  induction batches as [|batch rest IH]; intros it om res H; [constructor|].
  cbn [described_epoch] in H.
  destruct (described_step r use_cuda crit batch om) as [[om1 loss]|] eqn:Hs;
    simpl in H; [|done].
  constructor.
  - unfold described_step in Hs.
    destruct (batch !! 0%nat) as [b0|]; simpl in Hs; [|done].
    destruct (int_math_sqrt r) as [k|] eqn:Hk; simpl in Hs; [|done].
    destruct (batch !! Z.to_nat k) as [bk|] eqn:Hbk; simpl in Hs; [|done].
    exists b0, k, bk. repeat split; try done. by eapply int_math_sqrt_nonneg.
  - destruct (if decide (it mod 10 = 0) then _ else _); simpl in H; [|done].
    destruct (described_epoch len epoch r use_cuda crit (it + 1) rest om1)
      as [res'|] eqn:Hr; simpl in H; [|done].
    by eapply IH.
Qed.

(** The scalars of a described epoch are those of [epoch_log]: one per
    iteration divisible by 10, on the stream ["loss"], at the step
    [len * epoch + iteration]. *)
Lemma described_epoch_log len epoch r use_cuda crit batches :
  forall it om om' sc,
  described_epoch len epoch r use_cuda crit it batches om = Some (om', sc) ->
  map (fun x : string * Float * Z => (x.1.1, x.2)) sc =
  epoch_log len epoch it (Z.of_nat (length batches)).
Proof.
  induction batches as [|batch rest IH]; intros it om om' sc H.
  - injection H as <- <-. unfold epoch_log, logged_iterations.
    by rewrite py_range_nil by (simpl; lia).
  - cbn [described_epoch] in H.
    destruct (described_step r use_cuda crit batch om) as [[om1 loss]|];
      simpl in H; [|done].
    replace (Z.of_nat (length (batch :: rest)))
      with (1 + Z.of_nat (length rest)) by (simpl; lia).
    rewrite epoch_log_cons by lia.
    destruct (decide (it mod 10 = 0)) as [E|E].
    + destruct (loss_data_0 loss) as [v|]; simpl in H; [|done].
      destruct (described_epoch len epoch r use_cuda crit (it + 1) rest om1)
        as [[om2 sc2]|] eqn:Hr; simpl in H; [|done].
      injection H as <- <-. simpl. f_equal. by eapply IH.
    + simpl in H.
      destruct (described_epoch len epoch r use_cuda crit (it + 1) rest om1)
        as [[om2 sc2]|] eqn:Hr; simpl in H; [|done].
      injection H as <- <-. simpl. by eapply IH.
Qed.

End EpochDescribed.

Section DescribedClaims.
Context `{TO : Torch}.
Variable w : World.

Lemma int_math_sqrt_2 : int_math_sqrt 2 = Return 1.
Proof. vm_compute. reflexivity. Qed.

Lemma int_math_sqrt_3 : int_math_sqrt 3 = Return 1.
Proof. vm_compute. reflexivity. Qed.

Lemma int_math_sqrt_4 : int_math_sqrt 4 = Return 2.
Proof. vm_compute. reflexivity. Qed.

(** C9.  An epoch that returns has stepped every batch of its pass, in
    order, as described: the model is applied to the batch's tensor at index
    0 and the loss compares its output with the batch's tensor at index
    [int(math.sqrt(rate))], so every batch of the pass has these two
    tensors; conversely the epoch returns whenever these steps and the save
    succeed.  The same holds of a single batch step.  The index is 1 for the
    rates 2 and 3, which thus use the same position, and 2 for the rate 4. *)
Theorem label_at_sqrt_of_rate :
  (forall ld o m crit epoch s om s',
     train ld o m crit epoch s = (Return om, s') ->
     (exists sc,
        described_epoch (loader_len ld) epoch (rate (opt s)) (cuda (opt s))
          crit 1 (loader_iter ld (passes s)) (o, module_train m)
        = Some (om, sc)) /\
     Forall (fun batch : Batch =>
               exists b0 k bk, batch !! 0%nat = Some b0 /\
                 int_math_sqrt (rate (opt s)) = Return k /\ 0 <= k /\
                 batch !! Z.to_nat k = Some bk)
       (loader_iter ld (passes s))) /\
  (forall ld o m crit epoch s om sc,
     described_epoch (loader_len ld) epoch (rate (opt s)) (cuda (opt s))
       crit 1 (loader_iter ld (passes s)) (o, module_train m) = Some (om, sc) ->
     save_checkpoint_outcome om.2 (rate (opt s)) epoch = Return tt ->
     (train ld o m crit epoch s).1 = Return om) /\
  (forall len crit epoch it (batch : Batch) om s om' s',
     train_batch len crit epoch it batch om s = (Return om', s') ->
     exists loss,
       described_step (rate (opt s)) (cuda (opt s)) crit batch om
       = Some (om', loss)) /\
  int_math_sqrt 2 = Return 1 /\
  int_math_sqrt 3 = Return 1 /\
  int_math_sqrt 4 = Return 2 /\
  (forall batch : Batch, input_label 2 batch = input_label 3 batch) /\
  (forall (b0 b1 b2 : Tensor) (rest : Batch),
     let batch := b0 :: b1 :: b2 :: rest in
     input_label 2 batch =
       Return (autograd_Variable b0 false, autograd_Variable b1 false) /\
     input_label 3 batch =
       Return (autograd_Variable b0 false, autograd_Variable b1 false) /\
     input_label 4 batch =
       Return (autograd_Variable b0 false, autograd_Variable b2 false)).
Proof.
  split; [|split; [|split]].
  - intros ld o m crit epoch s om s' H.
    pose proof (train_described ld o m crit epoch s) as Hd. simpl in Hd.
    rewrite H in Hd. simpl in Hd.
    destruct (described_epoch (loader_len ld) epoch (rate (opt s))
                (cuda (opt s)) crit 1 (loader_iter ld (passes s))
                (o, module_train m)) as [[om1 sc]|] eqn:He; [|done].
    destruct Hd as (evs & _ & _ & Hr).
    assert (om1 = om) as ->.
    { destruct (save_checkpoint_outcome om1.2 (rate (opt s)) epoch);
        by simplify_eq. }
    split; [by exists sc|]. by eapply described_epoch_batches.
  - intros ld o m crit epoch s om sc He Hsave.
    pose proof (train_described ld o m crit epoch s) as Hd. simpl in Hd.
    rewrite He in Hd. destruct Hd as (evs & _ & _ & ->). by rewrite Hsave.
  - intros len crit epoch it batch om s om' s' H.
    pose proof (train_batch_described len crit epoch it batch om s) as Hd.
    simpl in Hd. rewrite H in Hd. simpl in Hd.
    destruct (described_step (rate (opt s)) (cuda (opt s)) crit batch om)
      as [[om1 loss]|]; [|by destruct Hd].
    exists loss.
    destruct (decide (it mod 10 = 0));
      [destruct (loss_data_0 loss)|]; by simplify_eq.
  - split; [apply int_math_sqrt_2|]. split; [apply int_math_sqrt_3|].
    split; [apply int_math_sqrt_4|]. split.
    + intros batch. unfold input_label.
      by rewrite int_math_sqrt_2, int_math_sqrt_3.
    + intros b0 b1 b2 rest. unfold input_label.
      rewrite int_math_sqrt_2, int_math_sqrt_3, int_math_sqrt_4. done.
Qed.

(** C6.  An epoch returns exactly when its described form succeeds and the
    save returns, and then the scalars it has emitted are the described ones:
    one for each iteration divisible by 10, on the stream ["loss"], with the
    value of the loss of that iteration, at the step
    [len * epoch + iteration].  An epoch that raises has logged an initial
    part of these.  Over a run whose loader has [len(loader)] batches in
    every pass, the scalars of a run that returns are those of the epochs of
    [range(start_epoch, nEpochs + 1)] in order, and the step indices of the
    scalars of any run increase strictly, also from one epoch to the next. *)
Theorem loss_logged_every_tenth_iteration :
  (forall ld o m crit epoch s,
     let rs := train ld o m crit epoch s in
     match described_epoch (loader_len ld) epoch (rate (opt s)) (cuda (opt s))
             crit 1 (loader_iter ld (passes s)) (o, module_train m) with
     | Some (om, sc) =>
         exists evs,
           trace rs.2 = trace s ++ evs /\ scalars evs = sc /\
           rs.1 = match save_checkpoint_outcome om.2 (rate (opt s)) epoch with
                  | Return _ => Return om
                  | Raise e => Raise e
                  end
     | None => is_Return rs.1 = false
     end) /\
  (forall len epoch r use_cuda crit it batches om om' sc,
     described_epoch len epoch r use_cuda crit it batches om = Some (om', sc) ->
     map (fun x : string * Float * Z => (x.1.1, x.2)) sc =
     epoch_log len epoch it (Z.of_nat (length batches))) /\
  (forall len epoch n,
     StronglySorted Z.lt (epoch_log len epoch 1 n).*2 /\
     forall x, x ∈ epoch_log len epoch 1 n <->
       exists it, 1 <= it <= n /\ it mod 10 = 0 /\
                  x = ("loss", len * epoch + it)) /\
  (forall ld o m crit epoch s,
     let rs := train ld o m crit epoch s in
     let n := Z.of_nat (length (loader_iter ld (passes s))) in
     exists evs,
       trace rs.2 = trace s ++ evs /\
       scalar_log evs `prefix_of` epoch_log (loader_len ld) epoch 1 n) /\
  (forall parsed ss s1,
     setup w (init_state parsed) = (Return ss, s1) ->
     honest_len (s_loader ss) ->
     let rs := main w (init_state parsed) in
     (rs.1 = Return tt ->
      scalar_log (trace rs.2) =
      run_log (loader_len (s_loader ss))
        (py_range (start_epoch (opt s1)) (nEpochs parsed + 1))) /\
     forall (i j : nat) x y,
       (i < j)%nat ->
       (scalar_log (trace rs.2)).*2 !! i = Some x ->
       (scalar_log (trace rs.2)).*2 !! j = Some y -> x < y).
Proof.
  split; [|split; [|split; [|split]]].
  - intros ld o m crit epoch s. apply train_described.
  - intros len epoch r use_cuda crit it batches om om' sc.
    apply described_epoch_log.
  - intros len epoch n. split; [apply epoch_log_sorted|].
    intros x. rewrite epoch_log_elem. split.
    + intros (it & Hr & Hm & ->). exists it. repeat split; try done; lia.
    + intros (it & Hr & Hm & ->). exists it. repeat split; try done; lia.
  - intros ld o m crit epoch s. simpl.
    pose proof (train_spec ld o m crit epoch s) as Ht. simpl in Ht.
    destruct Ht as (_ & _ & evs & Htr & _ & _ & Hpre & _).
    by exists evs.
  - intros parsed ss s1 Hs Hh. simpl.
    pose proof (main_spec w parsed ss s1 Hs) as Hm. simpl in Hm.
    pose proof (setup_nEpochs w parsed) as Hn. rewrite Hs in Hn. simpl in Hn.
    rewrite Hn in Hm.
    destruct Hm as (_ & _ & _ & _ & _ & _ & Hlog).
    destruct (Hlog Hh) as [Hpre Heq]. split; [exact Heq|].
    intros i j x y Hij Hi Hj.
    eapply (sorted_lookup Z.lt); [|exact Hij|exact Hi|exact Hj].
    eapply sorted_prefix; [exact (prefix_fmap snd _ _ Hpre)|].
    apply run_log_sorted; [|apply py_range_sorted].
    rewrite <- (Hh 0%nat). lia.
Qed.

End DescribedClaims.

Section PretrainedRun.
Context `{TO : Torch}.
Variable w : World.

Lemma finish_placed p m s ss s' :
  finish p m s = (Return ss, s') ->
  placed (p_cuda p) (gpus (opt s)) m (s_model ss) /\
  s_loader ss = p_loader p.
Proof.
  unfold finish, set_gpu, placed, bind, emit, gets, lift, ret. simpl.
  destruct (p_cuda p); simpl.
  - destruct (DataParallel m (py_range 0 (gpus (opt s)))) as [dp|] eqn:Hdp;
      simpl; [|done].
    destruct (module_cuda dp) as [m'|] eqn:Hm; simpl; [|done].
    destruct (criterion_cuda (p_criterion p)); simpl; [|done].
    destruct (Adam _ _); simpl; [|done].
    intros [= <- _]. simpl. split; [|done]. by exists dp.
  - destruct (module_cpu m) as [m'|] eqn:Hm; simpl; [|done].
    destruct (criterion_cpu (p_criterion p)); simpl; [|done].
    destruct (Adam _ _); simpl; [|done].
    by intros [= <- _].
Qed.

(** C7.  When [--pretrained] names an existing file, the ["state_dict"]
    entry of what is loaded is taken for a model object: its own
    [state_dict()] is what is loaded into the model, and an entry that is a
    plain parameter mapping raises [AttributeError].  The resume branch hands
    the entry to [load_state_dict] as it is.  The pretrained branch changes
    no option (so not the start epoch) and starts no pass.  In a run that
    reaches the loop, the model the loop trains is the one [Net] built, with
    the nested model's parameters loaded into it (after the resume branch,
    which leaves it alone when no resume checkpoint is loaded) and then
    placed on the device; the optimizer is created afterwards by [Adam] over
    that model and [opt.lr], and without a resume checkpoint the options,
    the start epoch among them, are the parsed ones. *)
Theorem pretrained_reads_nested_module :
  (forall m s weights inner,
     pretrained (opt s) <> "" -> isfile w (pretrained (opt s)) = true ->
     torch_load w (pretrained (opt s)) = Return weights ->
     weights !! "state_dict" = Some (PyModule inner) ->
     pretrained_step w m s =
     (load_state_dict m (PyStateDict (state_dict inner)),
      printed s ("=> loading model '" +:+ pretrained (opt s) +:+ "'"))) /\
  (forall m s weights sd,
     pretrained (opt s) <> "" -> isfile w (pretrained (opt s)) = true ->
     torch_load w (pretrained (opt s)) = Return weights ->
     weights !! "state_dict" = Some (PyStateDict sd) ->
     pretrained_step w m s =
     (Raise (AttributeError "state_dict"),
      printed s ("=> loading model '" +:+ pretrained (opt s) +:+ "'"))) /\
  (forall m s ckpt E v,
     resume (opt s) <> "" -> isfile w (resume (opt s)) = true ->
     torch_load w (resume (opt s)) = Return ckpt ->
     ckpt !! "epoch" = Some (PyInt E) ->
     ckpt !! "state_dict" = Some v ->
     resume_step w m s =
     (load_state_dict m v,
      with_start_epoch
        (printed s ("=> loading checkpoint '" +:+ resume (opt s) +:+ "'"))
        (E + 1))) /\
  (forall m s,
     opt (pretrained_step w m s).2 = opt s /\
     passes (pretrained_step w m s).2 = passes s) /\
  (forall s ss s1,
     setup w s = (Return ss, s1) ->
     Adam (parameters (s_model ss)) (lr (opt s)) = Return (s_optimizer ss)) /\
  (forall (parsed : Options) weights inner ss s1,
     pretrained parsed <> "" -> isfile w (pretrained parsed) = true ->
     torch_load w (pretrained parsed) = Return weights ->
     weights !! "state_dict" = Some (PyModule inner) ->
     setup w (init_state parsed) = (Return ss, s1) ->
     exists m0 m1 m2,
       Net (blocks parsed) (rate parsed) (use_se parsed) = Return m0 /\
       (exists sa sb, opt sa = parsed /\
          resume_step w m0 sa = (Return m1, sb)) /\
       (resume parsed = "" \/ isfile w (resume parsed) = false ->
        m1 = m0 /\ opt s1 = parsed) /\
       load_state_dict m1 (PyStateDict (state_dict inner)) = Return m2 /\
       placed (cuda parsed) (gpus parsed) m2 (s_model ss) /\
       Adam (parameters (s_model ss)) (lr parsed) = Return (s_optimizer ss) /\
       main w (init_state parsed) =
       training_loop (s_loader ss) (s_criterion ss)
         (py_range (start_epoch (opt s1)) (nEpochs parsed + 1))
         (s_optimizer ss, s_model ss) s1).
Proof.
  split; [|split; [|split; [|split; [|split]]]].
  - intros m s weights inner H1 H2 H3 H4.
    rewrite (pretrained_step_loads w m s weights) by done. by rewrite H4.
  - intros m s weights sd H1 H2 H3 H4.
    rewrite (pretrained_step_loads w m s weights) by done. by rewrite H4.
  - intros m s ckpt E v H1 H2 H3 H4 H5.
    rewrite (resume_step_loads w m s ckpt E) by done. by rewrite H5.
  - intros m s. split; [apply pretrained_step_same_opt|].
    by destruct (pretrained_step_silent w m s) as [? _].
  - intros s ss s1 Hs.
    apply setup_inv in Hs
      as (p & sa & m1 & sb & m2 & sc & sd & _ & Hr & _ & Hf & _ & Ha & Hc & _).
    apply finish_inv in Hf as (_ & Hadam & _).
    destruct (resume_step_same_but_start w (p_model p) sa) as [e He].
    rewrite Hr in He. simpl in He.
    by rewrite Hc, He, Ha in Hadam.
  - intros parsed weights inner ss s1 H1 H2 H3 H4 Hs.
    pose proof (main_setup_Return w _ _ _ Hs) as Hmain.
    pose proof (setup_nEpochs w parsed) as Hn. rewrite Hs in Hn. simpl in Hn.
    rewrite Hn in Hmain.
    pose proof Hs as Hs'.
    apply setup_inv in Hs'
      as (p & sa & m1 & sb & m2 & sc & sd & Hp & Hr & Hpt & Hf & -> & Ha & Hc & Hd).
    simpl in Ha.
    pose proof (prepare_inv w _ _ _ Hp) as [Hcu Hnet]. simpl in Hcu, Hnet.
    destruct (resume_step_same_but_start w (p_model p) sa) as [e He].
    rewrite Hr in He. simpl in He. rewrite Ha in He.
    rewrite (pretrained_step_loads w m1 sb weights) in Hpt
      by (by rewrite ?He).
    rewrite H4 in Hpt. injection Hpt as Hload Hsc.
    pose proof (finish_inv _ _ _ _ _ Hf) as (_ & Hadam & _).
    pose proof (finish_placed _ _ _ _ _ Hf) as [Hpl _].
    rewrite Hc, He in Hadam, Hpl. simpl in Hadam, Hpl. rewrite Hcu in Hpl.
    exists (p_model p), m1, m2. repeat split; try done.
    + by exists sa, sb.
    + destruct (decide (resume parsed = "")) as [Hempty|Hne].
      * rewrite resume_step_off in Hr by (by rewrite Ha). by injection Hr.
      * destruct H as [?|Hf']; [done|].
        rewrite resume_step_missing in Hr by (by rewrite Ha).
        by injection Hr.
    + exact (setup_opt_kept w parsed ss _ H Hs).
Qed.

End PretrainedRun.

Section BatchEdges.
Context `{TO : Torch}.

(** Lines 104-106 succeed exactly when [int(math.sqrt(rate))] is defined
    and the batch has a tensor at that index.  An empty batch fails with
    [IndexError] at [batch[0]]; otherwise an exception of [math.sqrt] is
    raised as it is ([ValueError] for the rate -1, [OverflowError] for the
    rate 10^400), and a batch too short for the index fails with
    [IndexError].  The index is the truncated double square root: for the
    rate 2^52 + 2^27 it is one more than the integer square root. *)
Theorem input_label_edges :
  (forall (r : Z) (batch : Batch),
     (is_Return (input_label r batch) = true <->
      exists k, int_math_sqrt r = Return k /\ k < Z.of_nat (length batch)) /\
     (batch = [] -> input_label r batch = Raise IndexError) /\
     (batch <> [] -> forall e, int_math_sqrt r = Raise e ->
      input_label r batch = Raise e) /\
     (batch <> [] -> forall k, int_math_sqrt r = Return k ->
      Z.of_nat (length batch) <= k -> input_label r batch = Raise IndexError)) /\
  int_math_sqrt (-1) = Raise (ValueError "math domain error") /\
  int_math_sqrt (10 ^ 400) =
    Raise (OverflowError "int too large to convert to float") /\
  int_math_sqrt (2 ^ 52 + 2 ^ 27) = Return (Z.sqrt (2 ^ 52 + 2 ^ 27) + 1).
Proof.
  split; [|by vm_compute].
  intros r batch. unfold input_label, py_getitem.
  destruct batch as [|b0 rest]; simpl.
  { repeat split; try done. intros (k & Hk & Hlt).
    apply int_math_sqrt_nonneg in Hk. lia. }
  destruct (int_math_sqrt r) as [k|e] eqn:Hk.
  2:{ repeat split; try done.
      - by intros (k & ? & _).
      - by intros _ e' [= ->]. }
  pose proof (int_math_sqrt_nonneg r k Hk) as Hnn.
  destruct (Z.ltb_spec k 0) as [?|_]; [lia|].
  destruct (Z.ltb_spec k 0) as [?|_]; [lia|].
  destruct ((b0 :: rest) !! Z.to_nat k) as [bk|] eqn:Hl.
  - apply lookup_lt_Some in Hl. simpl in Hl.
    repeat split; try done.
    + intros _. exists k. split; [done|]. lia.
    + intros _ k' [= <-] Hle. lia.
  - apply lookup_ge_None in Hl. simpl in Hl.
    repeat split; try done.
    intros (k' & [= <-] & Hlt). lia.
Qed.

End BatchEdges.

Section DescribedWitnesses.
Import Toy.
#[local] Existing Instance toy_types.
#[local] Existing Instance toy_torch.

Lemma label_at_sqrt_of_rate_witness :
  let s := init_state toy_options in
  exists s',
    @train toy_types toy_torch toy_data 0 [8; 2] tt 1 s
    = (Return (12, [20; 14]), s') /\
    @described_epoch toy_types toy_torch 12 1 2 false tt 1 toy_data (0, [8; 2])
    = Some ((12, [20; 14]), [("loss", 19, 22)]) /\
    Forall (fun batch : list Z =>
              exists b0 k bk, batch !! 0%nat = Some b0 /\
                int_math_sqrt 2 = Return k /\ 0 <= k /\
                batch !! Z.to_nat k = Some bk) toy_data.
Proof.
  intros s.
  assert (@train toy_types toy_torch toy_data 0 [8; 2] tt 1 s
          = (Return (12, [20; 14]),
             (@train toy_types toy_torch toy_data 0 [8; 2] tt 1 s).2)) as Ht
    by (vm_compute; reflexivity).
  eexists. split; [exact Ht|].
  destruct (proj1 (@label_at_sqrt_of_rate toy_types toy_torch) toy_data 0
              [8; 2] tt 1 s _ _ Ht) as [(sc & Hd) Hall].
  split; [|exact Hall].
  vm_compute in Hd. injection Hd as <-. vm_compute. reflexivity.
Defined.

Lemma loss_logged_every_tenth_iteration_witness :
  (exists evs,
     trace (@train toy_types toy_torch toy_data 0 [8; 2] tt 1
              (init_state toy_options)).2 = evs /\
     scalars evs = [("loss", 19, 22)]) /\
  exists ss s1,
    setup toy_world (init_state toy_options) = (Return ss, s1) /\
    honest_len (s_loader ss) /\
    scalar_log (trace (main toy_world (init_state toy_options)).2)
    = [("loss", 22); ("loss", 34); ("loss", 46)].
Proof.
  split.
  - pose proof (proj1 (@loss_logged_every_tenth_iteration toy_types toy_torch
                         toy_world) toy_data 0 [8; 2] tt 1
                  (init_state toy_options)) as H.
    cbv zeta in H.
    destruct (described_epoch _ _ _ _ _ _ _ _) as [[om sc]|] eqn:Hd in H;
      [|vm_compute in Hd; discriminate Hd].
    destruct H as (evs & Ht & Hsc & _).
    exists evs. split; [exact Ht|]. rewrite Hsc.
    vm_compute in Hd. by injection Hd as _ <-.
  - destruct (setup toy_world (init_state toy_options)) as [[ss|e] s1] eqn:Hs;
      [|vm_compute in Hs; discriminate Hs].
    assert (honest_len (s_loader ss)) as Hh by (intros k; reflexivity).
    exists ss, s1. split; [reflexivity|]. split; [exact Hh|].
    destruct (proj2 (proj2 (proj2 (proj2
                (@loss_logged_every_tenth_iteration toy_types toy_torch
                   toy_world)))) toy_options ss s1 Hs Hh) as [Heq _].
    rewrite Heq by (vm_compute; reflexivity).
    pose proof Hs as Hs'. vm_compute in Hs'. injection Hs' as <- <-.
    vm_compute. reflexivity.
Defined.

Lemma pretrained_reads_nested_module_witness :
  let parsed := with_pretrained toy_options "model.pth" in
  pretrained parsed <> "" /\
  isfile toy_world (pretrained parsed) = true /\
  torch_load toy_world (pretrained parsed) = Return released_model /\
  released_model !! "state_dict" = Some (PyModule [3; 4]) /\
  exists ss s1,
    setup toy_world (init_state parsed) = (Return ss, s1) /\
    s_model ss = [3; 4] /\ start_epoch (opt s1) = 1.
Proof.
  intros parsed.
  assert (pretrained parsed <> "") as H1 by discriminate.
  assert (isfile toy_world (pretrained parsed) = true) as H2 by reflexivity.
  assert (torch_load toy_world (pretrained parsed) = Return released_model)
    as H3 by reflexivity.
  assert (released_model !! "state_dict" = Some (@PyModule toy_types [3; 4]))
    as H4 by (vm_compute; reflexivity).
  repeat (split; [assumption|]).
  destruct (setup toy_world (init_state parsed)) as [[ss|e] s1] eqn:Hs;
    [|vm_compute in Hs; discriminate Hs].
  exists ss, s1. split; [reflexivity|].
  destruct (proj2 (proj2 (proj2 (proj2 (proj2
              (@pretrained_reads_nested_module toy_types toy_torch
                 toy_world))))) parsed released_model [3; 4] ss s1
              H1 H2 H3 H4 Hs)
    as (m0 & m1 & m2 & Hnet & _ & Hno & Hload & Hpl & _).
  destruct (Hno (or_introl eq_refl)) as [-> Ho].
  injection Hnet as <-. vm_compute in Hload. injection Hload as <-.
  unfold placed in Hpl. cbn in Hpl. injection Hpl as <-. rewrite Ho.
  split; reflexivity.
Defined.

Lemma input_label_edges_witness :
  ([1; 2; 4] : Batch) <> [] /\
  int_math_sqrt 9 = Return 3 /\
  Z.of_nat (length ([1; 2; 4] : Batch)) <= 3 /\
  @input_label toy_types toy_torch 9 [1; 2; 4] = Raise IndexError.
Proof.
  assert (([1; 2; 4] : Batch) <> []) as H1 by discriminate.
  assert (int_math_sqrt 9 = Return 3) as H2 by (vm_compute; reflexivity).
  assert (Z.of_nat (length ([1; 2; 4] : Batch)) <= 3) as H3
    by (vm_compute; discriminate).
  repeat (split; [assumption|]).
  exact (proj2 (proj2 (proj2 (proj1 (@input_label_edges toy_types toy_torch)
                                9 [1; 2; 4]))) H1 3 H2 H3).
Defined.

End DescribedWitnesses.
